(** * Smart-Attendance-System: the attendance ledger and the face registry

    A shallow embedding of [src/code.py] (the attendance ledger kept in an
    openpyxl worksheet, its replication to the remote database and the error
    log) and of [src/face_utils.py] (the registry of face encodings).

    Conventions of the embedding.
    - A worksheet is the dictionary of its cells, keyed by (row, column),
      both counted from 1 as openpyxl does.  [max_row] and [max_column] are
      computed from the keys, as the library's properties are.  Reading the
      value of a cell that was never written gives [None]; the program only
      reads inside the current dimensions, so a read leaves them as they
      are and is modelled as a pure lookup.
    - Console output ([print]) is left out.  A clock reading is rendered
      with a four-digit year.
    - The loop of [main] is one [main_round] per pass, and the camera loop of
      [read_code_from_webcam] runs over the list of the frames delivered;
      what the camera and the decoders return is an input of the model.
    - The world outside the process (the clock, the remote database, the file
      system, the speech engine) is an explicit [env] given to each call.
    - Python exceptions are values of [exn]; a statement that can raise is a
      computation in the monad [M], and [try_] with its list of clauses is
      Python's [try: ... except C as e: ...].
    - Identifiers are strings of 8-bit characters; [int] of a one-character
      string succeeds on the ten ASCII digits.  Cell values written by the
      program are strings the spreadsheet library accepts. *)

From Stdlib Require Import String Ascii ZArith QArith Qabs Lia List.
From stdpp Require Import gmap strings list fin_maps pretty.

Local Open Scope string_scope.
Local Open Scope nat_scope.

(** ** Worksheets *)

Module Sheet.

(** A cell: its value, and the two style attributes the program sets. *)
Record cell := Cell {
  value : option string;
  font_bold : bool;
  fill : option string
}.

Definition blank : cell := Cell None false None.

(** The worksheet: [_cells] of openpyxl, and [column_dimensions] keyed by
    the column number (openpyxl keys it by the column letter, which
    [get_column_letter] computes from the number). *)
Record worksheet := Worksheet {
  cells : gmap (nat * nat) cell;
  column_width : gmap nat nat
}.

Definition empty : worksheet := Worksheet ∅ ∅.

Definition rows_of (s : worksheet) : list nat :=
  (λ kv, fst (fst kv)) <$> map_to_list (cells s).
Definition cols_of (s : worksheet) : list nat :=
  (λ kv, snd (fst kv)) <$> map_to_list (cells s).

(** [ws.max_row], [ws.max_column]: 1 on a sheet without cells, else the
    largest index in use. *)
Definition max_row (s : worksheet) : nat := Nat.max 1 (max_list (rows_of s)).
Definition max_column (s : worksheet) : nat := Nat.max 1 (max_list (cols_of s)).

(** [ws.cell(row=r, column=c).value] *)
Definition get (s : worksheet) (r c : nat) : option string :=
  match cells s !! (r, c) with
  | Some x => value x
  | None => None
  end.

Definition the_cell (s : worksheet) (r c : nat) : cell :=
  default blank (cells s !! (r, c)).

(** [ws.cell(row=r, column=c).value = v] *)
Definition set_value (r c : nat) (v : string) (s : worksheet) : worksheet :=
  let x := the_cell s r c in
  Worksheet (<[(r, c) := Cell (Some v) (font_bold x) (fill x)]> (cells s))
            (column_width s).

(** [ws.cell(row=r, column=c).font = Font(bold=True)] *)
Definition set_bold (r c : nat) (s : worksheet) : worksheet :=
  let x := the_cell s r c in
  Worksheet (<[(r, c) := Cell (value x) true (fill x)]> (cells s))
            (column_width s).

(** [ws.cell(row=r, column=c).fill = PatternFill(start_color=col, ...)] *)
Definition set_fill (r c : nat) (col : string) (s : worksheet) : worksheet :=
  let x := the_cell s r c in
  Worksheet (<[(r, c) := Cell (value x) (font_bold x) (Some col)]> (cells s))
            (column_width s).

(** [ws.column_dimensions[letter(c)].width = w] *)
Definition set_width (c w : nat) (s : worksheet) : worksheet :=
  Worksheet (cells s) (<[c := w]> (column_width s)).

End Sheet.

Import Sheet.

(** ** The for/break search loops *)

(** [for i in range(lo, lo + n): if p(i): found = i; break] *)
Fixpoint first_from (p : nat → bool) (lo n : nat) : option nat :=
  match n with
  | 0 => None
  | S n' => if p lo then Some lo else first_from p (S lo) n'
  end.

(** ** Clock readings and their renderings *)

Record datetime := Datetime {
  year : nat; month : nat; day : nat;
  hour : nat; minute : nat; second : nat; microsecond : nat
}.

Definition digit (n : nat) : ascii :=
  match n mod 10 with
  | 0 => "0" | 1 => "1" | 2 => "2" | 3 => "3" | 4 => "4"
  | 5 => "5" | 6 => "6" | 7 => "7" | 8 => "8" | _ => "9"
  end%char.

Definition two_digits (n : nat) : string :=
  String (digit (n / 10)) (String (digit n) "").
Definition four_digits (n : nat) : string :=
  String (digit (n / 1000)) (String (digit (n / 100)) (two_digits n)).
Definition six_digits (n : nat) : string :=
  String (digit (n / 1000 / 100)) (String (digit (n / 1000 / 10)) (four_digits n)).

(** [now.strftime('%Y-%m-%d')] *)
Definition strftime_date (d : datetime) : string :=
  four_digits (year d) ++ "-" ++ two_digits (month d) ++ "-" ++ two_digits (day d).
(** [now.strftime('%H:%M:%S')] *)
Definition strftime_time (d : datetime) : string :=
  two_digits (hour d) ++ ":" ++ two_digits (minute d) ++ ":" ++ two_digits (second d).
(** [now.strftime('%Y-%m-%d %H:%M:%S')] *)
Definition strftime_datetime (d : datetime) : string :=
  strftime_date d ++ " " ++ strftime_time d.
(** [str(datetime.datetime.now())], as in [f"{datetime.datetime.now()}: ..."] *)
Definition str_datetime (d : datetime) : string :=
  strftime_datetime d ++
  (if decide (microsecond d = 0) then "" else "." ++ six_digits (microsecond d)).

Definition newline : string := String (ascii_of_nat 10) "".

(** ** Exceptions, state and the monad of statements *)

Inductive exn_class :=
  ValueError | IndexError | PermissionError | OSError | OtherException.

Record exn := Exn { cls : exn_class; msg : string }.

Global Instance exn_class_eq_dec : EqDecision exn_class.
Proof. solve_decision. Defined.

Inductive result (A : Type) :=
| Ok (a : A)
| Raise (e : exn).
Arguments Ok {A} a.
Arguments Raise {A} e.

(** The payload written to the remote database. *)
Record attendance_data := AttendanceData {
  time : string; status : string; last_updated : string
}.

(** Everything the program can change. *)
Record state := State {
  sheet : worksheet;                         (* the open worksheet *)
  excel_file : option worksheet;             (* attendance.xlsx as last saved *)
  cloud : gmap (list string) attendance_data;(* remote database, by path *)
  error_log : list string;                   (* lines of error_log.txt *)
  engine : bool                              (* speech engine initialised *)
}.

Inductive remote_fault :=
| RemoteOk
| GetDatabaseFails (e : exn)
| FirstSetFails (e : exn)
| SecondSetFails (e : exn).

Inductive audio_fault :=
| AudioOk
| InitFails (e : exn)
| SayFails (e : exn).

(** What the outside world does during one call of [process_attendance]. *)
Record env := Env {
  now : datetime;              (* datetime.datetime.now() of process_attendance *)
  last_updated_now : datetime; (* the reading taken for 'last_updated' *)
  cloud_log_now : datetime;    (* the reading in update_cloud_storage's handler *)
  save_log_now : datetime;     (* the reading in the save handlers *)
  outer_log_now : datetime;    (* the reading in the outermost handler *)
  remote : remote_fault;
  save : option exn;           (* None: wb.save succeeds *)
  audio : audio_fault;
  log_open : option exn        (* None: error_log.txt can be opened for append *)
}.

Definition M (A : Type) : Type := state → result A * state.

Definition ret {A} (a : A) : M A := λ st, (Ok a, st).
Definition raise {A} (e : exn) : M A := λ st, (Raise e, st).
Definition bind {A B} (m : M A) (k : A → M B) : M B :=
  λ st, match m st with
        | (Ok a, st') => k a st'
        | (Raise e, st') => (Raise e, st')
        end.

Notation "x <- m ;; k" := (bind m (λ x, k))
  (at level 100, m at next level, right associativity, only parsing).
Notation "m ;; k" := (bind m (λ _, k))
  (at level 100, right associativity, only parsing).

(** One [except C as e: h] clause. *)
Definition clause (A : Type) : Type := (exn → bool) * (exn → M A).

Definition is_a (c : exn_class) : exn → bool := λ e, bool_decide (cls e = c).
(** [except Exception] *)
Definition any_exception : exn → bool := λ _, true.

Fixpoint dispatch {A} (cl : list (clause A)) (e : exn) : M A :=
  match cl with
  | [] => raise e
  | (p, h) :: rest => if p e then h e else dispatch rest e
  end.

(** [try: body  except ...: ...]; an exception raised inside a handler leaves
    the statement. *)
Definition try_ {A} (body : M A) (cl : list (clause A)) : M A :=
  λ st, match body st with
        | (Ok a, st') => (Ok a, st')
        | (Raise e, st') => dispatch cl e st'
        end.

Definition with_sheet (s : worksheet) (st : state) : state :=
  State s (excel_file st) (cloud st) (error_log st) (engine st).

Definition get_sheet : M worksheet := λ st, (Ok (sheet st), st).
Definition modify_sheet (f : worksheet → worksheet) : M unit :=
  λ st, (Ok tt, with_sheet (f (sheet st)) st).

(** [with open('error_log.txt', 'a') as f: f.write(line)] *)
Definition append_log (ev : env) (line : string) : M unit :=
  λ st, match log_open ev with
        | None => (Ok tt, State (sheet st) (excel_file st) (cloud st)
                             (error_log st ++ [line]) (engine st))
        | Some e => (Raise e, st)
        end.

(** ** [speak_message] *)

Definition engine_init (ev : env) : M unit :=
  λ st, if engine st then (Ok tt, st) else
        match audio ev with
        | InitFails e => (Raise e, st)
        | _ => (Ok tt, State (sheet st) (excel_file st) (cloud st) (error_log st) true)
        end.

Definition engine_say (ev : env) (message : string) : M unit :=
  match audio ev with
  | SayFails e => raise e
  | _ => ret tt
  end.

Definition speak_message (ev : env) (message : string) : M unit :=
  try_ (engine_init ev ;; engine_say ev message)
       [(any_exception, λ _, ret tt)].

(** ** [update_cloud_storage] *)

Definition get_database (ev : env) : M unit :=
  match remote ev with
  | GetDatabaseFails e => raise e
  | _ => ret tt
  end.

(** [ref.child(..).child(..).set(data)]: the first or the second of the two
    writes of [update_cloud_storage]. *)
Definition db_set (ev : env) (second_write : bool) (path : list string)
    (data : attendance_data) : M unit :=
  λ st, match remote ev, second_write with
        | FirstSetFails e, false => (Raise e, st)
        | SecondSetFails e, true => (Raise e, st)
        | _, _ => (Ok tt, State (sheet st) (excel_file st)
                               (<[path := data]> (cloud st)) (error_log st) (engine st))
        end.

(** Line 230: the line written to the log. *)
Definition cloud_error_line (ev : env) (barcode : string) (e : exn) : string :=
  str_datetime (cloud_log_now ev) ++ ": Error updating cloud storage for "
  ++ barcode ++ ": " ++ msg e ++ newline.

Definition update_cloud_storage (ev : env) (barcode date_str time_str : string)
    : M unit :=
  try_
    (get_database ev ;;
     let attendance_data :=
       AttendanceData time_str "present" (strftime_datetime (last_updated_now ev)) in
     db_set ev false ["attendance"; date_str; barcode] attendance_data ;;
     db_set ev true ["attendance"; "students"; barcode; date_str] attendance_data)
    [(any_exception, λ e, append_log ev (cloud_error_line ev barcode e))].

(** ** [initialize_excel_sheet] *)

Definition header_style (r c : nat) (s : worksheet) : worksheet :=
  set_fill r c "CCCCCC" (set_bold r c s).

Definition initialize_excel_sheet (s : worksheet) : worksheet :=
  let s := header_style 1 1 (set_value 1 1 "Student ID" s) in
  let s := header_style 1 2 (set_value 1 2 "Year" s) in
  let s := header_style 1 3 (set_value 1 3 "Registration Date" s) in
  set_width 3 20 (set_width 2 10 (set_width 1 15 s)).

(** ** [process_attendance] *)

(** The characters [int] accepts as a one-character string. *)
Definition is_ascii_digit (c : ascii) : bool :=
  (48 <=? nat_of_ascii c) && (nat_of_ascii c <=? 57).

(** [int(c)] for a one-character string. *)
Definition int_of_char (c : ascii) : M Z :=
  if is_ascii_digit c then ret (Z.of_nat (nat_of_ascii c - 48))
  else raise (Exn ValueError "invalid literal for int() with base 10").

(** [barcode[i]] *)
Definition char_at (barcode : string) (i : nat) : M ascii :=
  match String.get i barcode with
  | Some c => ret c
  | None => raise (Exn IndexError "string index out of range")
  end.

(** Lines 268-273: the column whose header is [date_str], if any. *)
Definition find_date_column (s : worksheet) (date_str : string) : option nat :=
  first_from (λ col_num, bool_decide (get s 1 col_num = Some date_str))
             1 (max_column s).

(** Lines 284-288: the row whose first cell is [barcode], if any. *)
Definition find_student_row (s : worksheet) (barcode : string) : option nat :=
  first_from (λ row_num, bool_decide (get s row_num 1 = Some barcode))
             2 (max_row s - 1).

(** Lines 267-281. *)
Definition date_column_for (date_str : string) : M nat :=
  s <- get_sheet ;;
  match find_date_column s date_str with
  | Some date_column => ret date_column
  | None =>
      let date_column := max_column s + 1 in
      modify_sheet (set_value 1 date_column date_str) ;;
      modify_sheet (set_bold 1 date_column) ;;
      modify_sheet (set_fill 1 date_column "CCCCCC") ;;
      modify_sheet (set_width date_column 15) ;;
      ret date_column
  end.

(** Lines 295-304: the year of a new row. *)
Definition year_on_creation (barcode : string) (student_row : nat) : M unit :=
  if 3 <=? String.length barcode then
    try_ (c <- char_at barcode 2 ;;
          third_char <- int_of_char c ;;
          let year := (5 - third_char)%Z in
          modify_sheet (set_value student_row 2 (pretty year)))
         [(is_a ValueError,
           λ _, modify_sheet (set_value student_row 2 "Not Specified"))]
  else modify_sheet (set_value student_row 2 "Not Specified").

(** Lines 291-306: the row-creation path. *)
Definition add_student_row (ev : env) (barcode : string) : M nat :=
  s <- get_sheet ;;
  let student_row := max_row s + 1 in
  modify_sheet (set_value student_row 1 barcode) ;;
  year_on_creation barcode student_row ;;
  modify_sheet (set_value student_row 3 (strftime_datetime (now ev))) ;;
  ret student_row.

(** Lines 308-315: the update path for a student who has a row. *)
Definition update_student_row (barcode : string) (student_row : nat) : M unit :=
  if 3 <=? String.length barcode then
    try_ (c <- char_at barcode 1 ;;
          third_char <- int_of_char c ;;
          let year := (5 - third_char)%Z in
          modify_sheet (set_value student_row 2 (pretty year)))
         [(is_a ValueError, λ _, ret tt)]
  else ret tt.

(** Lines 335 and 340: the lines written to the log. *)
Definition permission_error_line (ev : env) (barcode : string) : string :=
  str_datetime (save_log_now ev) ++ ": Excel file permission error for "
  ++ barcode ++ newline.
Definition save_error_line (ev : env) (barcode : string) (e : exn) : string :=
  str_datetime (save_log_now ev) ++ ": Excel save error for "
  ++ barcode ++ ": " ++ msg e ++ newline.

(** Lines 329-340. *)
Definition save_workbook (ev : env) (barcode : string) : M unit :=
  try_
    (λ st, match save ev with
           | None => (Ok tt, State (sheet st) (Some (sheet st)) (cloud st)
                                (error_log st) (engine st))
           | Some e => (Raise e, st)
           end)
    [(is_a PermissionError, λ _, append_log ev (permission_error_line ev barcode));
     (any_exception, λ e, append_log ev (save_error_line ev barcode e))].

(** Lines 267-318: the date column, the student's row, the time cell. *)
Definition update_ledger (ev : env) (barcode : string) : M unit :=
  let date_str := strftime_date (now ev) in
  let time_str := strftime_time (now ev) in
  date_column <- date_column_for date_str ;;
  s <- get_sheet ;;
  student_row <-
    match find_student_row s barcode with
    | None => add_student_row ev barcode
    | Some student_row =>
        update_student_row barcode student_row ;; ret student_row
    end ;;
  modify_sheet (set_value student_row date_column time_str).

(** Line 346: the line written to the log. *)
Definition processing_error_line (ev : env) (barcode : string) (e : exn) : string :=
  str_datetime (outer_log_now ev) ++ ": Attendance processing error for "
  ++ barcode ++ ": " ++ msg e ++ newline.

(** Lines 266-346, for a barcode that passed the guard. *)
Definition record_attendance (ev : env) (barcode : string) : M unit :=
  let date_str := strftime_date (now ev) in
  let time_str := strftime_time (now ev) in
  try_
    (update_ledger ev barcode ;;
     speak_message ev ("Attendance marked successfully for " ++ barcode) ;;
     update_cloud_storage ev barcode date_str time_str ;;
     save_workbook ev barcode)
    [(any_exception, λ e, append_log ev (processing_error_line ev barcode e))].

(** [process_attendance(barcode, wb, sheet)]; [None] is Python's [None]. *)
Definition process_attendance (ev : env) (barcode : option string) : M unit :=
  match barcode with
  | None => ret tt
  | Some "" => ret tt
  | Some barcode => record_attendance ev barcode
  end.

(** ** [face_utils.py]: the registry of face encodings *)

(** A Python dict keeps its keys in insertion order, and [recognize_face]
    returns the first key that matches in that order: the mapping is an
    association list with each key once. *)
Fixpoint dict_set {V} (k : string) (v : V) (d : list (string * V)) : list (string * V) :=
  match d with
  | [] => [(k, v)]
  | (k', v') :: rest =>
      if decide (k' = k) then (k, v) :: rest else (k', v') :: dict_set k v rest
  end.

Definition dict_del {V} (k : string) (d : list (string * V)) : list (string * V) :=
  filter (λ kv, fst kv ≠ k) d.

Definition dict_keys {V} (d : list (string * V)) : list string := fst <$> d.

Section FaceRegistry.

(** Frames, face regions and 128-number face encodings are values of the
    [face_recognition] library; the program only passes them around. *)
Variables (image location encoding : Type).
(** [face_recognition.face_locations] *)
Variable face_locations : image → list location.
(** [face_recognition.face_encodings] *)
Variable face_encodings : image → list location → list encoding.
(** [face_recognition.face_distance] between a known and a candidate
    encoding (a Euclidean norm). *)
Variable face_distance : encoding → encoding → Q.

(** The files the module reads and writes. *)
Record files := Files {
  encodings_file : option (list (string * encoding)); (* face_encodings.pkl *)
  faces_dir : option (gmap string image)              (* registered_faces/ *)
}.

Definition ensure_dirs (fs : files) : files :=
  match faces_dir fs with
  | Some _ => fs
  | None => Files (encodings_file fs) (Some ∅)
  end.

Definition load_encodings (fs : files) : list (string * encoding) :=
  match encodings_file fs with
  | Some d => d
  | None => []
  end.

Definition save_encodings (encodings : list (string * encoding)) (fs : files) : files :=
  Files (Some encodings) (faces_dir fs).

(** [cv2.imwrite(os.path.join(FACES_DIR, f"{roll_no}.jpg"), image)] *)
Definition imwrite (roll_no : string) (img : image) (fs : files) : files :=
  match faces_dir fs with
  | Some d => Files (encodings_file fs) (Some (<[roll_no ++ ".jpg" := img]> d))
  | None => fs
  end.

Definition register_face (img : image) (roll_no : string) (fs : files)
    : result (bool * string) * files :=
  let fs := ensure_dirs fs in
  let encodings := load_encodings fs in
  let locs := face_locations img in
  if negb (length locs =? 1) then
    (Ok (false, "Please ensure only one face is visible for registration."), fs)
  else
    match face_encodings img locs with
    | [] => (Raise (Exn IndexError "list index out of range"), fs)
    | face_encoding :: _ =>
        let encodings := dict_set roll_no face_encoding encodings in
        let fs := save_encodings encodings fs in
        let fs := imwrite roll_no img fs in
        (Ok (true, "Face registered successfully."), fs)
    end.

(** [face_recognition.compare_faces(known, candidate, tolerance)], which
    the library defines as
    [list(face_distance(known, candidate) <= tolerance)]. *)
Definition compare_faces (known : list encoding) (candidate : encoding)
    (tolerance : Q) : list bool :=
  (λ k, Qle_bool (face_distance k candidate) tolerance) <$> known.

(** The body of the inner loop: [match[0]] with [tolerance=0.5]. *)
Definition is_match (known_encoding face_encoding : encoding) : bool :=
  match compare_faces [known_encoding] face_encoding (1 # 2) with
  | b :: _ => b
  | [] => false
  end.

(** [for roll_no, known_encoding in encodings.items(): ...] *)
Fixpoint first_known (face_encoding : encoding)
    (items : list (string * encoding)) : option string :=
  match items with
  | [] => None
  | (roll_no, known_encoding) :: rest =>
      if is_match known_encoding face_encoding then Some roll_no
      else first_known face_encoding rest
  end.

(** [for face_encoding in face_encodings: ...] *)
Fixpoint first_face (faces : list encoding)
    (items : list (string * encoding)) : option string :=
  match faces with
  | [] => None
  | face_encoding :: rest =>
      match first_known face_encoding items with
      | Some roll_no => Some roll_no
      | None => first_face rest items
      end
  end.

Definition recognize_face (img : image) (fs : files) : option string :=
  let encodings := load_encodings fs in
  match encodings with
  | [] => None
  | _ =>
      let locs := face_locations img in
      match locs with
      | [] => None
      | _ => first_face (face_encodings img locs) encodings
      end
  end.

Definition deregister_face (roll_no : string) (fs : files) : files :=
  let fs :=
    match encodings_file fs with
    | Some encodings =>
        if decide (roll_no ∈ dict_keys encodings)
        then Files (Some (dict_del roll_no encodings)) (faces_dir fs)
        else fs
    | None => fs
    end in
  match faces_dir fs with
  | Some d => Files (encodings_file fs) (Some (delete (roll_no ++ ".jpg") d))
  | None => fs
  end.

End FaceRegistry.

Arguments Files {image encoding} _ _.
Arguments encodings_file {image encoding} _.
Arguments faces_dir {image encoding} _.
Arguments ensure_dirs {image encoding} _.
Arguments load_encodings {image encoding} _.
Arguments save_encodings {image encoding} _ _.
Arguments imwrite {image encoding} _ _ _.
Arguments register_face {image location encoding} _ _ _ _ _.
Arguments compare_faces {encoding} _ _ _ _.
Arguments is_match {encoding} _ _ _.
Arguments first_known {encoding} _ _ _.
Arguments first_face {encoding} _ _ _.
Arguments recognize_face {image location encoding} _ _ _ _ _.
Arguments deregister_face {image encoding} _ _.

(** ** Vocabulary of the properties *)

(** The header row as [initialize_excel_sheet] leaves it. *)
Definition headers_ok (s : worksheet) : Prop :=
  get s 1 1 = Some "Student ID" ∧ get s 1 2 = Some "Year"
  ∧ get s 1 3 = Some "Registration Date".

(** The rows (below the header) whose first cell is [barcode]. *)
Definition student_rows (s : worksheet) (barcode : string) : list nat :=
  filter (λ r, get s r 1 = Some barcode) (seq 2 (max_row s - 1)).

(** The columns whose header is [date_str]. *)
Definition date_columns (s : worksheet) (date_str : string) : list nat :=
  filter (λ c, get s 1 c = Some date_str) (seq 1 (max_column s)).

(** The headers to the right of the three fixed columns, left to right. *)
Definition date_headers (s : worksheet) : list (option string) :=
  get s 1 <$> seq 4 (max_column s - 3).

(** The cell of a student on a date, found the way the program finds it. *)
Definition ledger_cell (s : worksheet) (barcode date_str : string) : option string :=
  match find_student_row s barcode, find_date_column s date_str with
  | Some r, Some c => get s r c
  | _, _ => None
  end.

(** The distinct elements of a list, in the order of their first occurrence. *)
Definition add_new (acc : list string) (x : string) : list string :=
  if decide (x ∈ acc) then acc else acc ++ [x].
Definition first_seen (l : list string) : list string := foldl add_new [] l.

(** The exception a failing remote database raises. *)
Definition remote_exn (f : remote_fault) : option exn :=
  match f with
  | RemoteOk => None
  | GetDatabaseFails e | FirstSetFails e | SecondSetFails e => Some e
  end.

(** The log lines one call adds when the log can be written. *)
Definition cloud_lines (ev : env) (barcode : string) : list string :=
  match remote_exn (remote ev) with
  | Some e => [cloud_error_line ev barcode e]
  | None => []
  end.
Definition save_lines (ev : env) (barcode : string) : list string :=
  match save ev with
  | Some e => if is_a PermissionError e then [permission_error_line ev barcode]
              else [save_error_line ev barcode e]
  | None => []
  end.

(** [str(5 - int(c))] for a digit [c]. *)
Definition year_from (c : ascii) : string :=
  pretty (5 - Z.of_nat (nat_of_ascii c - 48))%Z.

(** The year text derived from the character at index [i] of [barcode], with
    the default of the row-creation path. *)
Definition year_at (i : nat) (barcode : string) : string :=
  match String.get i barcode with
  | Some c => if is_ascii_digit c then year_from c else "Not Specified"
  | None => "Not Specified"
  end.

(** How one recorded scan at [now] turns the sheet [s] into [s'], with the
    student in row [r] and the date in column [c]. *)
Definition ledger_step (now : datetime) (barcode : string)
    (s s' : worksheet) (r c : nat) : Prop :=
  4 ≤ c ∧ 2 ≤ r
  ∧ find_date_column s' (strftime_date now) = Some c
  ∧ find_student_row s' barcode = Some r
  ∧ get s' r c = Some (strftime_time now)
  ∧ (find_date_column s (strftime_date now) = Some c
       ∧ max_column s' = max_column s
     ∨ find_date_column s (strftime_date now) = None
       ∧ c = max_column s + 1 ∧ max_column s' = c)
  ∧ (find_student_row s barcode = Some r ∧ max_row s' = max_row s
     ∨ find_student_row s barcode = None
       ∧ r = max_row s + 1 ∧ max_row s' = r
       ∧ get s' r 2 = Some (year_at 2 barcode)
       ∧ get s' r 3 = Some (strftime_datetime now))
  ∧ (∀ i k, i ≠ r → (i, k) ≠ (1, c) → get s' i k = get s i k)
  ∧ (∀ k, 4 ≤ k → k ≠ c → get s' r k = get s r k).

(** [m] may raise, and leaves the sheet as it found it. *)
Definition keeps_sheet {A} (m : M A) : Prop :=
  ∀ st, sheet (snd (m st)) = sheet st.

(** A session: one call of [process_attendance] per scan. *)
Definition run (scans : list (env * option string)) (st : state) : state :=
  foldl (λ st sc, snd (process_attendance (fst sc) (snd sc) st)) st scans.

(** The scans that pass the guard of [process_attendance]. *)
Definition recorded (sc : env * option string) : bool :=
  match snd sc with
  | None => false
  | Some "" => false
  | Some _ => true
  end.

(** ** Concrete data for the examples *)

Module Example.

Definition morning : datetime := Datetime 2026 11 4 9 5 7 0.
Definition noon : datetime := Datetime 2026 11 4 12 30 0 250.

(** A call during which nothing fails. *)
Definition calm (t : datetime) : env :=
  Env t t t t t RemoteOk None AudioOk None.

(** A call during which the remote database and the save both fail. *)
Definition stormy (t : datetime) : env :=
  Env t t t t t (FirstSetFails (Exn OtherException "network unreachable"))
      (Some (Exn PermissionError "Permission denied")) AudioOk None.

(** The state of a new workbook after [initialize_excel_sheet]. *)
Definition fresh : state :=
  State (initialize_excel_sheet Sheet.empty) None ∅ [] false.

(** A stand-in for the camera and the face library: a frame is the list
    of the encodings of the faces in it, an encoding is a number, and the
    distance is the absolute difference. *)
Definition frame : Type := list Q.
Definition locate (img : frame) : list nat := seq 0 (length img).
Definition encode (img : frame) (locs : list nat) : list Q :=
  omap (λ i, img !! i) locs.
Definition distance (a b : Q) : Q := Qabs (a - b).

Definition registry : files frame Q :=
  Files (Some [("S1", 0%Q); ("S2", 3%Q)]) (Some ∅).

End Example.

(** ** Vocabulary of the further properties *)

(** [d[k]] for a dict in insertion order, [None] when the key is absent. *)
Fixpoint dict_get {V} (k : string) (d : list (string * V)) : option V :=
  match d with
  | [] => None
  | (k', v) :: rest => if decide (k' = k) then Some v else dict_get k rest
  end.

(** A small registry and camera for the examples of the further
    properties. *)
Module Sample.

Definition two_students : files Example.frame Q :=
  Files (Some [("S1", 0%Q); ("S2", 3%Q)]) (Some ∅).

Definition no_files : files Example.frame Q := Files None None.

(** Two stored faces of which the second is the closer to 2/5. *)
Definition close_pair : files Example.frame Q :=
  Files (Some [("S1", 0%Q); ("S2", (2 # 5)%Q)]) (Some ∅).

(** A call during which the remote database fails and the error log cannot
    be opened. *)
Definition mute (t : datetime) : env :=
  Env t t t t t (FirstSetFails (Exn OtherException "network unreachable"))
      None AudioOk (Some (Exn PermissionError "read-only file system")).


End Sample.

(** The identifiers in the first column below the header, top to bottom. *)
Definition student_ids (s : worksheet) : list (option string) :=
  (λ r, get s r 1) <$> seq 2 (max_row s - 1).

(** Cell [k] of a student's row, the row found the way the program finds
    it. *)
Definition ledger_field (s : worksheet) (barcode : string) (k : nat)
    : option string :=
  match find_student_row s barcode with
  | Some r => get s r k
  | None => None
  end.

(** The scan is recorded and is of student [b]. *)
Definition scan_of_student (b : string) (sc : env * option string) : bool :=
  recorded sc && bool_decide (snd sc = Some b).

(** The scan is recorded and is of student [b] on the date [d]. *)
Definition scan_of (b d : string) (sc : env * option string) : bool :=
  scan_of_student b sc && bool_decide (strftime_date (now (fst sc)) = d).

(** The time of the last scan of [b] on [d] in a session, [start] when there
    is none. *)
Definition last_time (b d : string) (start : option string)
    (scans : list (env * option string)) : option string :=
  foldl (λ acc sc, if scan_of b d sc then Some (strftime_time (now (fst sc)))
                   else acc) start scans.

(** The clock reading of the first scan of [b] in a session. *)
Definition first_scan (b : string) (scans : list (env * option string))
    : option string :=
  match filter (λ sc, scan_of_student b sc = true) scans with
  | sc :: _ => Some (strftime_datetime (now (fst sc)))
  | [] => None
  end.

(** The identifier of a recorded scan. *)
Definition barcode_of (sc : env * option string) : string := default "" (snd sc).

(** The two paths of the remote database that a scan writes, and the
    record written to both. *)
Definition by_date (barcode date_str : string) : list string :=
  ["attendance"; date_str; barcode].
Definition by_student (barcode date_str : string) : list string :=
  ["attendance"; "students"; barcode; date_str].
Definition payload (ev : env) (time_str : string) : attendance_data :=
  AttendanceData time_str "present" (strftime_datetime (last_updated_now ev)).

(** ** [main]: one round of the loop *)

(** [if x:] for a string or [None]. *)
Definition truthy (x : option string) : bool :=
  match x with
  | Some (String _ _) => true
  | _ => false
  end.

Section MainLoop.

Context {image location encoding : Type}.
Variable face_locations : image → list location.
Variable face_encodings : image → list location → list encoding.
Variable face_distance : encoding → encoding → Q.

(** The ledger and the registry side by side. *)
Record world := World { ledger : state; registry : files image encoding }.

(** Lines 371-390: one round of the loop of [main].  [face_frame] is what
    [capture_face_from_webcam] returned, [code_data] what
    [read_code_from_webcam] returns if the round calls it, and [ev] the
    world outside during the call of [process_attendance]. *)
Definition main_round (ev : env) (face_frame : option image)
    (code_data : option string) (w : world) : result unit * world :=
  match face_frame with
  | Some frame =>
      let roll_no :=
        recognize_face face_locations face_encodings face_distance
          frame (registry w) in
      if truthy roll_no then
        let res := process_attendance ev roll_no (ledger w) in
        (fst res, World (snd res) (registry w))
      else if truthy code_data then
        let reg := register_face face_locations face_encodings
                     frame (default "" code_data) (registry w) in
        match fst reg with
        | Ok (true, _) =>
            let res := process_attendance ev code_data (ledger w) in
            (fst res, World (snd res) (snd reg))
        | Ok (false, _) => (Ok tt, World (ledger w) (snd reg))
        | Raise e => (Raise e, World (ledger w) (snd reg))
        end
      else (Ok tt, w)
  | None => (Ok tt, w)
  end.

End MainLoop.

Arguments World {image encoding} _ _.
Arguments ledger {image encoding} _.
Arguments registry {image encoding} _.
Arguments main_round {image location encoding} _ _ _ _ _ _ _.

(** Every identifier that has a row in the ledger is registered. *)
Definition ids_registered {image encoding : Type} (w : @world image encoding)
    : Prop :=
  ∀ b, is_Some (find_student_row (sheet (ledger w)) b) →
       b ∈ dict_keys (load_encodings (registry w)).

(** ** [read_code_from_webcam] *)

(** What the loop sees of one frame. *)
Record frame_view := FrameView {
  qr_found : bool;              (* retval of detectAndDecodeMulti *)
  qr_texts : list string;       (* decoded_info of detectAndDecodeMulti *)
  barcode_texts : list string;  (* the decoded data of pyzbar.decode(frame) *)
  key_pressed : nat             (* cv2.waitKey(1) & 0xFF *)
}.

(** How the function ends on a finite feed of frames: it returns, it exits
    the program, or it is still waiting for the next frame. *)
Inductive reading :=
| Returned (code : option string)
| Exited
| StillReading (frame_count : nat).

(** Lines 172-188: the code found in a frame that is scanned. *)
Definition decode_frame (f : frame_view) : option string :=
  match qr_found f, qr_texts f with
  | true, String a q :: _ => Some (String a q)
  | _, _ =>
      match barcode_texts f with
      | barcode_data :: _ => Some barcode_data
      | [] => None
      end
  end.

(** [ord('q')], [ord('k')] and ESC. *)
Definition quit_keys : list nat := [113; 107; 27].

(** Lines 144-197: the loop, on the frames the camera delivers ([None]: the
    read failed).  Drawing on the frame and showing it are left out, and the
    library calls are taken not to raise (the handler of lines 201-206 returns
    [None] if one does). *)
Fixpoint read_code_loop (frame_count : nat) (feed : list (option frame_view))
    : reading :=
  match feed with
  | [] => StillReading frame_count
  | None :: _ => Returned None
  | Some f :: rest =>
      let frame_count := frame_count + 1 in
      match (if frame_count mod 5 =? 0 then decode_frame f else None) with
      | Some code => Returned (Some code)
      | None =>
          if bool_decide (key_pressed f ∈ quit_keys) then Exited
          else read_code_loop frame_count rest
      end
  end.

(** Lines 127-199, the camera opening or not. *)
Definition read_code_from_webcam (opened : bool)
    (feed : list (option frame_view)) : reading :=
  if opened then read_code_loop 0 feed else Returned None.

(** Frames that the loop passes over: delivered, without a quit key, and
    either not scanned or without a code. *)
Fixpoint passed_over (frame_count : nat) (pre : list (option frame_view)) : Prop :=
  match pre with
  | [] => True
  | None :: _ => False
  | Some g :: rest =>
      (((frame_count + 1) mod 5 ≠ 0 ∨ decode_frame g = None)
       ∧ key_pressed g ∉ quit_keys)
      ∧ passed_over (frame_count + 1) rest
  end.

(** Frames for the examples of the code reader. *)
Module SampleFeed.

Definition blank : frame_view := FrameView false [] [] 255.
Definition barcode_only : frame_view := FrameView false [] ["B-77"] 255.
Definition both_and_quit : frame_view := FrameView true ["QR-42"] ["B-77"] 113.

End SampleFeed.

(** The same call with another behaviour of the speech engine. *)
Definition with_audio (a : audio_fault) (ev : env) : env :=
  Env (now ev) (last_updated_now ev) (cloud_log_now ev) (save_log_now ev)
      (outer_log_now ev) (remote ev) (save ev) a (log_open ev).

(** Everything of the state but the speech engine. *)
Definition records (st : state)
    : worksheet * option worksheet * gmap (list string) attendance_data
      * list string :=
  (sheet st, excel_file st, cloud st, error_log st).

(** [m] neither reads nor writes the speech engine. *)
Definition engine_blind {A} (m : M A) : Prop :=
  ∀ st st', records st = records st' →
            fst (m st) = fst (m st') ∧ records (snd (m st)) = records (snd (m st')).

(** * Properties *)

(** ** Lemmas on worksheets *)

Section sheet_facts.

Lemma key_le_max_row s r c x :
  cells s !! (r, c) = Some x → r ≤ max_row s.
Proof.
  intros H. unfold max_row.
  assert (r ∈ rows_of s) as Hin.
  { unfold rows_of. apply list_elem_of_fmap. exists ((r, c), x).
    split; [done | by apply elem_of_map_to_list]. }
  apply max_list_elem_of_le in Hin. lia.
Qed.

Lemma key_le_max_column s r c x :
  cells s !! (r, c) = Some x → c ≤ max_column s.
Proof.
  intros H. unfold max_column.
  assert (c ∈ cols_of s) as Hin.
  { unfold cols_of. apply list_elem_of_fmap. exists ((r, c), x).
    split; [done | by apply elem_of_map_to_list]. }
  apply max_list_elem_of_le in Hin. lia.
Qed.

Lemma max_row_attained s :
  max_row s = 1 ∨ ∃ c x, cells s !! (max_row s, c) = Some x.
Proof.
  unfold max_row. destruct (rows_of s) as [|r0 l] eqn:E.
  - left. reflexivity.
  - assert (max_list (rows_of s) ∈ rows_of s) as Hin.
    { apply max_list_elem_of. by rewrite E. }
    rewrite <- E.
    destruct (decide (max_list (rows_of s) ≤ 1)) as [Hle|Hgt].
    + left. lia.
    + right. replace (Nat.max 1 (max_list (rows_of s)))
        with (max_list (rows_of s)) by lia.
      unfold rows_of in Hin at 2. apply list_elem_of_fmap in Hin.
      destruct Hin as [[[r c] x] [Heq Hel]]. simpl in Heq.
      apply elem_of_map_to_list in Hel. exists c, x. by rewrite Heq.
Qed.

Lemma max_column_attained s :
  max_column s = 1 ∨ ∃ r x, cells s !! (r, max_column s) = Some x.
Proof.
  unfold max_column. destruct (cols_of s) as [|c0 l] eqn:E.
  - left. reflexivity.
  - assert (max_list (cols_of s) ∈ cols_of s) as Hin.
    { apply max_list_elem_of. by rewrite E. }
    rewrite <- E.
    destruct (decide (max_list (cols_of s) ≤ 1)) as [Hle|Hgt].
    + left. lia.
    + right. replace (Nat.max 1 (max_list (cols_of s)))
        with (max_list (cols_of s)) by lia.
      unfold cols_of in Hin at 2. apply list_elem_of_fmap in Hin.
      destruct Hin as [[[r c] x] [Heq Hel]]. simpl in Heq.
      apply elem_of_map_to_list in Hel. exists r, x. by rewrite Heq.
Qed.

End sheet_facts.


(** ** How the cell operations act on values and dimensions *)

Section cell_ops.

Lemma max_row_ge_1 s : 1 ≤ max_row s.
Proof. unfold max_row. lia. Qed.

Lemma max_column_ge_1 s : 1 ≤ max_column s.
Proof. unfold max_column. lia. Qed.

Lemma max_row_insert_cell s r c x w :
  1 ≤ r →
  max_row (Worksheet (<[(r, c) := x]> (cells s)) w) = Nat.max (max_row s) r.
Proof.
  intros Hr. set (s' := Worksheet _ w).
  assert (r ≤ max_row s') as H1.
  { apply (key_le_max_row s' r c x). simpl. apply lookup_insert_eq. }
  assert (max_row s ≤ max_row s') as H2.
  { destruct (max_row_attained s) as [->|(c0 & x0 & Hk)]; [apply max_row_ge_1|].
    destruct (decide ((r, c) = (max_row s, c0))) as [Heq|Hne].
    - injection Heq as <- _. done.
    - apply (key_le_max_row s' _ c0 x0). simpl. by rewrite lookup_insert_ne. }
  assert (max_row s' ≤ Nat.max (max_row s) r) as H3.
  { destruct (max_row_attained s') as [->|(c0 & x0 & Hk)]; [lia|].
    simpl in Hk. destruct (decide ((r, c) = (max_row s', c0))) as [Heq|Hne].
    - injection Heq as <- _. lia.
    - rewrite lookup_insert_ne in Hk by done.
      apply key_le_max_row in Hk. lia. }
  lia.
Qed.

Lemma max_column_insert_cell s r c x w :
  1 ≤ c →
  max_column (Worksheet (<[(r, c) := x]> (cells s)) w) = Nat.max (max_column s) c.
Proof.
  intros Hc. set (s' := Worksheet _ w).
  assert (c ≤ max_column s') as H1.
  { apply (key_le_max_column s' r c x). simpl. apply lookup_insert_eq. }
  assert (max_column s ≤ max_column s') as H2.
  { destruct (max_column_attained s) as [->|(r0 & x0 & Hk)]; [apply max_column_ge_1|].
    destruct (decide ((r, c) = (r0, max_column s))) as [Heq|Hne].
    - injection Heq as _ <-. done.
    - apply (key_le_max_column s' r0 _ x0). simpl. by rewrite lookup_insert_ne. }
  assert (max_column s' ≤ Nat.max (max_column s) c) as H3.
  { destruct (max_column_attained s') as [->|(r0 & x0 & Hk)]; [lia|].
    simpl in Hk. destruct (decide ((r, c) = (r0, max_column s'))) as [Heq|Hne].
    - injection Heq as _ <-. lia.
    - rewrite lookup_insert_ne in Hk by done.
      apply key_le_max_column in Hk. lia. }
  lia.
Qed.

Lemma get_set_value r c v s r' c' :
  get (set_value r c v s) r' c' =
  if decide ((r, c) = (r', c')) then Some v else get s r' c'.
Proof.
  unfold get, set_value. simpl. rewrite lookup_insert.
  destruct (decide ((r, c) = (r', c'))); reflexivity.
Qed.

Lemma value_the_cell s r c : value (the_cell s r c) = get s r c.
Proof. unfold the_cell, get. by destruct (cells s !! (r, c)). Qed.

Lemma get_set_bold r c s r' c' : get (set_bold r c s) r' c' = get s r' c'.
Proof.
  unfold get at 1, set_bold. simpl. rewrite lookup_insert.
  destruct (decide ((r, c) = (r', c'))) as [[= <- <-]|]; simpl.
  - apply value_the_cell.
  - reflexivity.
Qed.

Lemma get_set_fill r c col s r' c' : get (set_fill r c col s) r' c' = get s r' c'.
Proof.
  unfold get at 1, set_fill. simpl. rewrite lookup_insert.
  destruct (decide ((r, c) = (r', c'))) as [[= <- <-]|]; simpl.
  - apply value_the_cell.
  - reflexivity.
Qed.

Lemma get_set_width c w s r' c' : get (set_width c w s) r' c' = get s r' c'.
Proof. reflexivity. Qed.

Lemma max_row_set_value r c v s :
  1 ≤ r → max_row (set_value r c v s) = Nat.max (max_row s) r.
Proof. apply max_row_insert_cell. Qed.
Lemma max_row_set_bold r c s :
  1 ≤ r → max_row (set_bold r c s) = Nat.max (max_row s) r.
Proof. apply max_row_insert_cell. Qed.
Lemma max_row_set_fill r c col s :
  1 ≤ r → max_row (set_fill r c col s) = Nat.max (max_row s) r.
Proof. apply max_row_insert_cell. Qed.
Lemma max_row_set_width c w s : max_row (set_width c w s) = max_row s.
Proof. reflexivity. Qed.

Lemma max_column_set_value r c v s :
  1 ≤ c → max_column (set_value r c v s) = Nat.max (max_column s) c.
Proof. apply max_column_insert_cell. Qed.
Lemma max_column_set_bold r c s :
  1 ≤ c → max_column (set_bold r c s) = Nat.max (max_column s) c.
Proof. apply max_column_insert_cell. Qed.
Lemma max_column_set_fill r c col s :
  1 ≤ c → max_column (set_fill r c col s) = Nat.max (max_column s) c.
Proof. apply max_column_insert_cell. Qed.
Lemma max_column_set_width c w s : max_column (set_width c w s) = max_column s.
Proof. reflexivity. Qed.

Lemma get_Some_bounds s r c v :
  get s r c = Some v → r ≤ max_row s ∧ c ≤ max_column s.
Proof.
  unfold get. destruct (cells s !! (r, c)) as [x|] eqn:E; [|done].
  intros _. split; [by eapply key_le_max_row | by eapply key_le_max_column].
Qed.

End cell_ops.

(** ** The search loops *)

Section search.

Lemma first_from_Some p lo n i :
  first_from p lo n = Some i ↔
  lo ≤ i < lo + n ∧ p i = true ∧ ∀ j, lo ≤ j < i → p j = false.
Proof.
  revert lo. induction n as [|n IH]; intros lo; simpl.
  - split; [done | lia].
  - destruct (p lo) eqn:E.
    + split.
      * intros [= <-]. repeat split; [lia | lia | done | lia].
      * intros (Hr & Hp & Hlt). f_equal.
        destruct (decide (lo = i)) as [|Hne]; [done|].
        rewrite Hlt in E by lia. done.
    + rewrite IH. split.
      * intros (Hr & Hp & Hlt). repeat split; [lia | lia | done |].
        intros j Hj. destruct (decide (j = lo)) as [->|]; [done|].
        apply Hlt. lia.
      * intros (Hr & Hp & Hlt).
        assert (lo ≠ i) by (intros ->; congruence).
        repeat split; [lia | lia | done |]. intros j Hj. apply Hlt. lia.
Qed.

Lemma first_from_None p lo n :
  first_from p lo n = None ↔ ∀ j, lo ≤ j < lo + n → p j = false.
Proof.
  revert lo. induction n as [|n IH]; intros lo; simpl.
  - split; [intros _ j; lia | done].
  - destruct (p lo) eqn:E.
    + split; [done|]. intros H. rewrite H in E by lia. done.
    + rewrite IH. split.
      * intros H j Hj. destruct (decide (j = lo)) as [->|]; [done|].
        apply H. lia.
      * intros H j Hj. apply H. lia.
Qed.

End search.

(** ** Rendered dates are not fixed headers *)

Section dates.

Lemma digit_is_digit n : is_ascii_digit (digit n) = true.
Proof.
  unfold digit. generalize (n mod 10). intros m.
  do 9 (destruct m as [|m]; [reflexivity|]). reflexivity.
Qed.

Lemma strftime_date_head d :
  ∃ n rest, strftime_date d = String (digit n) rest.
Proof. unfold strftime_date, four_digits. simpl. eauto. Qed.

Lemma date_not_header d h :
  h ∈ ["Student ID"; "Year"; "Registration Date"] → strftime_date d ≠ h.
Proof.
  intros Hh Heq. destruct (strftime_date_head d) as (n & rest & Hd).
  rewrite Hd in Heq. pose proof (digit_is_digit n) as Hdig.
  repeat (apply elem_of_cons in Hh as [->|Hh]);
    [| | | by apply elem_of_nil in Hh];
    injection Heq as Hc _; rewrite Hc in Hdig; discriminate.
Qed.

Lemma header_cell_not_date s d c h :
  get s 1 c = Some h → h ∈ ["Student ID"; "Year"; "Registration Date"] →
  get s 1 c ≠ Some (strftime_date d).
Proof.
  intros Hg Hh Hc. rewrite Hg in Hc.
  assert (strftime_date d = h) as E by congruence.
  by apply date_not_header in E.
Qed.

Lemma date_column_ge_4 s d c :
  headers_ok s → get s 1 c = Some (strftime_date d) → 1 ≤ c → 4 ≤ c.
Proof.
  intros (H1 & H2 & H3) Hc Hge.
  destruct (decide (c = 1)) as [->|].
  { exfalso. eapply header_cell_not_date; [apply H1 | repeat constructor | apply Hc]. }
  destruct (decide (c = 2)) as [->|].
  { exfalso. eapply header_cell_not_date; [apply H2 | repeat constructor | apply Hc]. }
  destruct (decide (c = 3)) as [->|].
  { exfalso. eapply header_cell_not_date; [apply H3 | repeat constructor | apply Hc]. }
  lia.
Qed.

Lemma headers_max_column s : headers_ok s → 3 ≤ max_column s.
Proof. intros (_ & _ & H3). by apply get_Some_bounds in H3 as [_ ?]. Qed.

End dates.

(** ** Rendering of dates is injective *)

Section date_rendering.

Lemma digit_code n : nat_of_ascii (digit n) = 48 + n mod 10.
Proof.
  unfold digit. pose proof (Nat.mod_upper_bound n 10 ltac:(lia)) as Hlt.
  revert Hlt. generalize (n mod 10). intros m Hm.
  do 10 (destruct m as [|m]; [reflexivity|]). lia.
Qed.

Lemma digit_inj a b : digit a = digit b → a mod 10 = b mod 10.
Proof.
  intros H. apply (f_equal nat_of_ascii) in H. rewrite !digit_code in H. lia.
Qed.

Lemma two_digits_inj n m :
  n < 100 → m < 100 → two_digits n = two_digits m → n = m.
Proof.
  intros Hn Hm H. unfold two_digits in H.
  assert (digit (n / 10) = digit (m / 10)) as H1 by congruence.
  assert (digit n = digit m) as H0 by congruence.
  apply digit_inj in H1, H0.
  pose proof (Nat.div_mod_eq n 10). pose proof (Nat.div_mod_eq m 10).
  assert (n / 10 < 10) by (apply Nat.Div0.div_lt_upper_bound; lia).
  assert (m / 10 < 10) by (apply Nat.Div0.div_lt_upper_bound; lia).
  rewrite (Nat.mod_small (n / 10)), (Nat.mod_small (m / 10)) in H1 by lia.
  lia.
Qed.

Lemma four_digits_inj n m :
  n < 10 * 1000 → m < 10 * 1000 → four_digits n = four_digits m → n = m.
Proof.
  intros Hn Hm H. unfold four_digits, two_digits in H.
  assert (digit (n / 1000) = digit (m / 1000)) as H3 by congruence.
  assert (digit (n / 100) = digit (m / 100)) as H2 by congruence.
  assert (digit (n / 10) = digit (m / 10)) as H1 by congruence.
  assert (digit n = digit m) as H0 by congruence.
  apply digit_inj in H3, H2, H1, H0.
  replace (n / 1000) with (n / 10 / 10 / 10) in H3
    by (by rewrite !Nat.Div0.div_div).
  replace (m / 1000) with (m / 10 / 10 / 10) in H3
    by (by rewrite !Nat.Div0.div_div).
  replace (n / 100) with (n / 10 / 10) in H2 by (by rewrite !Nat.Div0.div_div).
  replace (m / 100) with (m / 10 / 10) in H2 by (by rewrite !Nat.Div0.div_div).
  pose proof (Nat.div_mod_eq n 10). pose proof (Nat.div_mod_eq m 10).
  pose proof (Nat.div_mod_eq (n / 10) 10). pose proof (Nat.div_mod_eq (m / 10) 10).
  pose proof (Nat.div_mod_eq (n / 10 / 10) 10).
  pose proof (Nat.div_mod_eq (m / 10 / 10) 10).
  assert (n / 10 / 10 / 10 < 10).
  { rewrite !Nat.Div0.div_div. apply Nat.Div0.div_lt_upper_bound. simpl. lia. }
  assert (m / 10 / 10 / 10 < 10).
  { rewrite !Nat.Div0.div_div. apply Nat.Div0.div_lt_upper_bound. simpl. lia. }
  rewrite (Nat.mod_small (n / 10 / 10 / 10)),
    (Nat.mod_small (m / 10 / 10 / 10)) in H3 by lia.
  lia.
Qed.

Lemma append_cons a (s t : string) : String a s ++ t = String a (s ++ t).
Proof. reflexivity. Qed.

Lemma append_nil (t : string) : "" ++ t = t.
Proof. reflexivity. Qed.

(** Distinct calendar dates are rendered differently. *)
Lemma strftime_date_inj d1 d2 :
  year d1 < 10 * 1000 → year d2 < 10 * 1000 →
  month d1 < 100 → month d2 < 100 → day d1 < 100 → day d2 < 100 →
  strftime_date d1 = strftime_date d2 →
  year d1 = year d2 ∧ month d1 = month d2 ∧ day d1 = day d2.
Proof.
  intros Hy1 Hy2 Hm1 Hm2 Hd1 Hd2 H.
  unfold strftime_date in H.
  assert (four_digits (year d1) = four_digits (year d2)
          ∧ two_digits (month d1) = two_digits (month d2)
          ∧ two_digits (day d1) = two_digits (day d2)) as (A & B & C).
  { unfold four_digits, two_digits in *.
    rewrite !append_cons, !append_nil in H. split_and!; congruence. }
  split_and!; [by apply four_digits_inj | by apply two_digits_inj
              | by apply two_digits_inj].
Qed.

End date_rendering.

(** ** The state monad: computations that leave the sheet alone *)

Section frames.

Lemma with_sheet_id st : with_sheet (sheet st) st = st.
Proof. by destruct st. Qed.

Lemma bind_ok {A B} (m : M A) (k : A → M B) st a st' :
  m st = (Ok a, st') → bind m k st = k a st'.
Proof. intros H. unfold bind. by rewrite H. Qed.

Lemma bind_raise {A B} (m : M A) (k : A → M B) st e st' :
  m st = (Raise e, st') → bind m k st = (Raise e, st').
Proof. intros H. unfold bind. by rewrite H. Qed.

Lemma keeps_sheet_bind {A B} (m : M A) (k : A → M B) :
  keeps_sheet m → (∀ a, keeps_sheet (k a)) → keeps_sheet (bind m k).
Proof.
  intros Hm Hk st. unfold bind. specialize (Hm st).
  destruct (m st) as [[a|e] st1]; simpl in *; [|done].
  by rewrite Hk.
Qed.

Lemma keeps_sheet_try {A} (m : M A) (cl : list (clause A)) :
  keeps_sheet m → Forall (λ c, ∀ e, keeps_sheet (snd c e)) cl →
  keeps_sheet (try_ m cl).
Proof.
  intros Hm Hcl st. unfold try_. specialize (Hm st).
  destruct (m st) as [[a|e] st1]; simpl in *; [done|].
  rewrite <- Hm. clear Hm. induction Hcl as [|[p h] cl Hh _ IH]; simpl.
  - reflexivity.
  - destruct (p e); [apply Hh | apply IH].
Qed.

Lemma keeps_sheet_ret {A} (a : A) : keeps_sheet (ret a).
Proof. by intros st. Qed.

Lemma keeps_sheet_raise {A} e : keeps_sheet (@raise A e).
Proof. by intros st. Qed.

Lemma keeps_sheet_append_log ev line : keeps_sheet (append_log ev line).
Proof. intros st. unfold append_log. by destruct (log_open ev). Qed.

Lemma keeps_sheet_speak ev m : keeps_sheet (speak_message ev m).
Proof.
  apply keeps_sheet_try.
  - apply keeps_sheet_bind.
    + intros st. unfold engine_init.
      destruct (engine st); [done|]. by destruct (audio ev).
    + intros _. unfold engine_say.
      destruct (audio ev); auto using keeps_sheet_ret, keeps_sheet_raise.
  - repeat constructor; intros e; apply keeps_sheet_ret.
Qed.

Lemma keeps_sheet_db_set ev b path data : keeps_sheet (db_set ev b path data).
Proof. intros st. unfold db_set. by destruct (remote ev), b. Qed.

Lemma keeps_sheet_cloud ev barcode d t :
  keeps_sheet (update_cloud_storage ev barcode d t).
Proof.
  apply keeps_sheet_try.
  - apply keeps_sheet_bind.
    + unfold get_database.
      destruct (remote ev); auto using keeps_sheet_ret, keeps_sheet_raise.
    + intros _. apply keeps_sheet_bind; [apply keeps_sheet_db_set|].
      intros _. apply keeps_sheet_db_set.
  - repeat constructor; intros e; apply keeps_sheet_append_log.
Qed.

Lemma keeps_sheet_save ev barcode : keeps_sheet (save_workbook ev barcode).
Proof.
  apply keeps_sheet_try.
  - intros st. by destruct (save ev).
  - repeat constructor; intros e; apply keeps_sheet_append_log.
Qed.

End frames.

(** ** The steps of [update_ledger] *)

Section ledger_steps.

Lemma string_get_lt (b : string) i :
  i < String.length b → ∃ c, String.get i b = Some c.
Proof.
  revert i. induction b as [|a b IH]; intros i; simpl; [lia|].
  destruct i as [|i]; [eauto|]. intros H. apply IH. lia.
Qed.

Lemma string_get_ge (b : string) i :
  String.length b ≤ i → String.get i b = None.
Proof.
  revert i. induction b as [|a b IH]; intros i; simpl; [done|].
  destruct i as [|i]; [lia|]. intros H. apply IH. lia.
Qed.

Lemma date_column_for_spec d st :
  headers_ok (sheet st) →
  ∃ s1 c,
    date_column_for (strftime_date d) st = (Ok c, with_sheet s1 st)
    ∧ 4 ≤ c
    ∧ find_date_column s1 (strftime_date d) = Some c
    ∧ max_row s1 = max_row (sheet st)
    ∧ (find_date_column (sheet st) (strftime_date d) = Some c
         ∧ max_column s1 = max_column (sheet st)
       ∨ find_date_column (sheet st) (strftime_date d) = None
         ∧ c = max_column (sheet st) + 1 ∧ max_column s1 = c)
    ∧ (∀ i k, (i, k) ≠ (1, c) → get s1 i k = get (sheet st) i k).
Proof.
  intros Hh. pose proof (headers_max_column _ Hh) as H3.
  unfold date_column_for, bind, get_sheet.
  destruct (find_date_column (sheet st) (strftime_date d)) as [c|] eqn:E.
  - exists (sheet st), c. rewrite with_sheet_id.
    pose proof E as E'. apply first_from_Some in E' as (Hr & Hp & _).
    apply bool_decide_eq_true in Hp.
    split_and!; [done | by eapply date_column_ge_4; [| |lia] | done | done
                | by left | done].
  - set (c := max_column (sheet st) + 1).
    exists (set_width c 15 (set_fill 1 c "CCCCCC" (set_bold 1 c
              (set_value 1 c (strftime_date d) (sheet st))))), c.
    assert (∀ i k, get (set_width c 15 (set_fill 1 c "CCCCCC" (set_bold 1 c
              (set_value 1 c (strftime_date d) (sheet st))))) i k
            = if decide ((1, c) = (i, k)) then Some (strftime_date d)
              else get (sheet st) i k) as Hget.
    { intros i k.
      by rewrite get_set_width, get_set_fill, get_set_bold, get_set_value. }
    assert (max_column (set_width c 15 (set_fill 1 c "CCCCCC" (set_bold 1 c
              (set_value 1 c (strftime_date d) (sheet st))))) = c) as Hmc.
    { rewrite max_column_set_width, max_column_set_fill, max_column_set_bold,
        max_column_set_value by lia. lia. }
    split_and!.
    + done.
    + lia.
    + unfold find_date_column. apply first_from_Some. rewrite Hmc.
      split; [lia|]. split.
      * apply bool_decide_eq_true. rewrite Hget. by rewrite decide_True.
      * intros j Hj. apply bool_decide_eq_false. rewrite Hget.
        rewrite decide_False by (intros [= ->]; lia).
        eapply first_from_None in E; [by apply bool_decide_eq_false in E|].
        lia.
    + rewrite max_row_set_width, max_row_set_fill, max_row_set_bold,
        max_row_set_value by lia. pose proof (max_row_ge_1 (sheet st)). lia.
    + right. done.
    + intros i k Hne. rewrite Hget. by rewrite decide_False.
Qed.

Lemma year_on_creation_run barcode r st :
  year_on_creation barcode r st =
  (Ok tt, with_sheet (set_value r 2 (year_at 2 barcode) (sheet st)) st).
Proof.
  unfold year_on_creation, year_at.
  destruct (3 <=? String.length barcode) eqn:E.
  - apply Nat.leb_le in E.
    destruct (string_get_lt barcode 2) as [c Hc]; [lia|].
    unfold try_, bind, char_at, int_of_char. rewrite Hc. simpl.
    destruct (is_ascii_digit c); reflexivity.
  - apply Nat.leb_gt in E. rewrite string_get_ge by lia. reflexivity.
Qed.

Lemma update_student_row_run barcode r st :
  update_student_row barcode r st =
  (Ok tt,
   match String.get 1 barcode with
   | Some c =>
       if (3 <=? String.length barcode) && is_ascii_digit c
       then with_sheet (set_value r 2 (year_from c) (sheet st)) st
       else st
   | None => st
   end).
Proof.
  unfold update_student_row.
  destruct (3 <=? String.length barcode) eqn:E.
  - apply Nat.leb_le in E.
    destruct (string_get_lt barcode 1) as [c Hc]; [lia|].
    unfold try_, bind, char_at, int_of_char. rewrite Hc. simpl.
    destruct (is_ascii_digit c); reflexivity.
  - simpl. by destruct (String.get 1 barcode).
Qed.

Lemma update_student_row_frame barcode r st :
  ∃ s', update_student_row barcode r st = (Ok tt, with_sheet s' st)
        ∧ (∀ i k, (i, k) ≠ (r, 2) → get s' i k = get (sheet st) i k)
        ∧ (1 ≤ r → max_row s' = Nat.max (max_row (sheet st)) r
                   ∨ max_row s' = max_row (sheet st))
        ∧ (1 ≤ r → max_column s' = Nat.max (max_column (sheet st)) 2
                   ∨ max_column s' = max_column (sheet st)).
Proof.
  rewrite update_student_row_run.
  destruct (String.get 1 barcode) as [c|];
    [destruct ((3 <=? String.length barcode) && is_ascii_digit c)|].
  - eexists. split; [reflexivity|]. split_and!.
    + intros i k Hne. rewrite get_set_value. by rewrite decide_False.
    + intros Hr. left. by apply max_row_set_value.
    + intros Hr. left. apply max_column_set_value. lia.
  - exists (sheet st). rewrite with_sheet_id. split_and!; auto.
  - exists (sheet st). rewrite with_sheet_id. split_and!; auto.
Qed.

Lemma first_from_ext p q lo n :
  (∀ j, lo ≤ j < lo + n → p j = q j) →
  first_from p lo n = first_from q lo n.
Proof.
  revert lo. induction n as [|n IH]; intros lo H; simpl; [done|].
  rewrite <- (H lo) by lia. destruct (p lo); [done|].
  apply IH. intros j Hj. apply H. lia.
Qed.

Lemma find_date_column_ext s s' d :
  max_column s = max_column s' → (∀ k, get s 1 k = get s' 1 k) →
  find_date_column s d = find_date_column s' d.
Proof.
  intros Hm Hg. unfold find_date_column. rewrite Hm.
  apply first_from_ext. intros j _. by rewrite Hg.
Qed.

Lemma find_student_row_ext s s' b :
  max_row s = max_row s' → (∀ i, get s i 1 = get s' i 1) →
  find_student_row s b = find_student_row s' b.
Proof.
  intros Hm Hg. unfold find_student_row. rewrite Hm.
  apply first_from_ext. intros j _. by rewrite Hg.
Qed.

Lemma add_student_row_run ev barcode st :
  add_student_row ev barcode st =
  (Ok (max_row (sheet st) + 1),
   with_sheet
     (set_value (max_row (sheet st) + 1) 3 (strftime_datetime (now ev))
        (set_value (max_row (sheet st) + 1) 2 (year_at 2 barcode)
           (set_value (max_row (sheet st) + 1) 1 barcode (sheet st)))) st).
Proof.
  unfold add_student_row, bind, get_sheet, modify_sheet. simpl.
  rewrite year_on_creation_run. reflexivity.
Qed.

(** Lines 284-315: afterwards the student has a row, and it is the one the
    search finds. *)
Lemma student_row_step ev barcode st :
  3 ≤ max_column (sheet st) →
  ∃ s2 r,
    match find_student_row (sheet st) barcode with
    | None => add_student_row ev barcode
    | Some student_row =>
        update_student_row barcode student_row ;; ret student_row
    end st = (Ok r, with_sheet s2 st)
    ∧ 2 ≤ r
    ∧ find_student_row s2 barcode = Some r
    ∧ max_column s2 = max_column (sheet st)
    ∧ (find_student_row (sheet st) barcode = Some r
         ∧ max_row s2 = max_row (sheet st)
       ∨ find_student_row (sheet st) barcode = None
         ∧ r = max_row (sheet st) + 1 ∧ max_row s2 = r
         ∧ get s2 r 2 = Some (year_at 2 barcode)
         ∧ get s2 r 3 = Some (strftime_datetime (now ev)))
    ∧ (∀ i k, i ≠ r → get s2 i k = get (sheet st) i k)
    ∧ (∀ k, 4 ≤ k → get s2 r k = get (sheet st) r k).
Proof.
  intros H3.
  destruct (find_student_row (sheet st) barcode) as [r|] eqn:E.
  - destruct (update_student_row_frame barcode r st)
      as (s2 & Hrun & Hget & Hmr & Hmc).
    pose proof E as E'. apply first_from_Some in E' as (Hr & Hp & Hlt).
    apply bool_decide_eq_true in Hp.
    assert (max_row s2 = max_row (sheet st)) as Hmr'.
    { apply get_Some_bounds in Hp as [? _].
      destruct Hmr as [->| ->]; lia. }
    assert (max_column s2 = max_column (sheet st)) as Hmc'.
    { destruct Hmc as [->| ->]; lia. }
    exists s2, r. split_and!.
    + unfold bind. rewrite Hrun. reflexivity.
    + lia.
    + rewrite <- E. apply find_student_row_ext; [done|].
      intros i. apply Hget. intros [= _]. 
    + done.
    + by left.
    + intros i k Hne. apply Hget. congruence.
    + intros k Hk. apply Hget. intros [= ->]. lia.
  - set (r := max_row (sheet st) + 1).
    pose proof (max_row_ge_1 (sheet st)) as Hge.
    rewrite add_student_row_run. fold r.
    set (s2 := set_value r 3 _ _).
    assert (∀ i k, get s2 i k =
              if decide ((r, 3) = (i, k)) then Some (strftime_datetime (now ev))
              else if decide ((r, 2) = (i, k)) then Some (year_at 2 barcode)
              else if decide ((r, 1) = (i, k)) then Some barcode
              else get (sheet st) i k) as Hget.
    { intros i k. unfold s2. by rewrite !get_set_value. }
    assert (max_row s2 = r) as Hmr.
    { unfold s2. rewrite !max_row_set_value by lia. lia. }
    exists s2, r. split_and!.
    + reflexivity.
    + lia.
    + unfold find_student_row. apply first_from_Some. rewrite Hmr.
      split; [lia|]. split.
      * apply bool_decide_eq_true. rewrite Hget.
        rewrite !decide_False by congruence. by rewrite decide_True.
      * intros j Hj. apply bool_decide_eq_false. rewrite Hget.
        rewrite !decide_False by (intros [= ->]; lia).
        eapply first_from_None in E; [by apply bool_decide_eq_false in E|].
        lia.
    + unfold s2. rewrite !max_column_set_value by lia. lia.
    + right. split_and!; [done | done | done | |].
      * rewrite Hget. rewrite decide_False by congruence. by rewrite decide_True.
      * rewrite Hget. by rewrite decide_True.
    + intros i k Hne. rewrite Hget.
      by rewrite !decide_False by (intros [=]; congruence).
    + intros k Hk. rewrite Hget.
      by rewrite !decide_False by (intros [=]; lia).
Qed.

(** Lines 267-318 as a whole.  [c] is the date column and [r] the
    student's row; everything else on the sheet is as before. *)
Lemma update_ledger_spec ev barcode st :
  headers_ok (sheet st) →
  ∃ s' r c,
    update_ledger ev barcode st = (Ok tt, with_sheet s' st)
    ∧ ledger_step (now ev) barcode (sheet st) s' r c.
Proof.
  intros Hh.
  destruct (date_column_for_spec (now ev) st Hh)
    as (s1 & c & Hrun1 & Hc4 & Hfc & Hmr1 & Hcase1 & Hfr1).
  assert (headers_ok s1) as Hh1.
  { destruct Hh as (A & B & C). unfold headers_ok.
    rewrite !Hfr1 by (intros [=]; lia). done. }
  pose proof (headers_max_column _ Hh1) as H3.
  destruct (student_row_step ev barcode (with_sheet s1 st) H3)
    as (s2 & r & Hrun2 & Hr2 & Hfr & Hmc2 & Hcase2 & Hfr2 & Hrow2).
  simpl in Hrun2, Hmc2, Hcase2, Hfr2, Hrow2.
  assert (find_student_row s1 barcode = find_student_row (sheet st) barcode)
    as Hfs.
  { apply find_student_row_ext; [done|].
    intros i. apply Hfr1. intros [=]. lia. }
  rewrite Hfs in Hcase2.
  set (t := strftime_time (now ev)).
  assert (c ≤ max_column s1) as Hcle.
  { apply first_from_Some in Hfc. lia. }
  assert (r ≤ max_row s2) as Hrle.
  { apply first_from_Some in Hfr. lia. }
  assert (∀ i k, get (set_value r c t s2) i k =
            if decide ((r, c) = (i, k)) then Some t else get s2 i k) as Hget.
  { intros i k. apply get_set_value. }
  assert (max_row (set_value r c t s2) = max_row s2) as Hmr3.
  { rewrite max_row_set_value by lia. lia. }
  assert (max_column (set_value r c t s2) = max_column s2) as Hmc3.
  { rewrite max_column_set_value by lia. lia. }
  exists (set_value r c t s2), r, c. unfold ledger_step. split_and!.
  - unfold update_ledger.
    erewrite bind_ok by exact Hrun1.
    erewrite bind_ok by reflexivity.
    erewrite bind_ok by exact Hrun2.
    reflexivity.
  - done.
  - done.
  - rewrite <- Hfc. apply find_date_column_ext; [lia|].
    intros k. rewrite Hget. rewrite decide_False by (intros [=]; lia).
    apply Hfr2. lia.
  - rewrite <- Hfr. apply find_student_row_ext; [lia|].
    intros i. rewrite Hget. by rewrite decide_False by (intros [=]; lia).
  - rewrite Hget. by rewrite decide_True.
  - destruct Hcase1 as [[? ?]|(? & ? & ?)]; [left | right]; split_and!;
      try done; lia.
  - destruct Hcase2 as [[? ?]|(? & ? & ? & Hy & Hreg)]; [left | right];
      split_and!; try done; try lia.
    + rewrite Hget. by rewrite decide_False by (intros [=]; lia).
    + rewrite Hget. by rewrite decide_False by (intros [=]; lia).
  - intros i k Hi Hk. rewrite Hget. rewrite decide_False by congruence.
    rewrite Hfr2 by done. by apply Hfr1.
  - intros k Hk Hne. rewrite Hget. rewrite decide_False by congruence.
    rewrite Hrow2 by done. apply Hfr1. intros [=]. lia.
Qed.

(** The sheet after [record_attendance] is the sheet after its ledger
    step, whatever the speech engine, the remote database and the file
    system do. *)
Lemma record_attendance_sheet ev barcode st :
  sheet (snd (record_attendance ev barcode st))
  = sheet (snd (update_ledger ev barcode st)).
Proof.
  unfold record_attendance, try_, bind.
  destruct (update_ledger ev barcode st) as [[[]|e] st1]; simpl.
  - pose proof (keeps_sheet_speak ev
      ("Attendance marked successfully for " ++ barcode) st1) as H1.
    destruct (speak_message _ _ st1) as [[[]|e1] st2]; simpl in *.
    + pose proof (keeps_sheet_cloud ev barcode (strftime_date (now ev))
                    (strftime_time (now ev)) st2) as H2.
      destruct (update_cloud_storage _ _ _ _ st2) as [[[]|e2] st3]; simpl in *.
      * pose proof (keeps_sheet_save ev barcode st3) as H4.
        destruct (save_workbook _ _ st3) as [[[]|e3] st4]; simpl in *.
        -- congruence.
        -- rewrite keeps_sheet_append_log. congruence.
      * rewrite keeps_sheet_append_log. congruence.
    + rewrite keeps_sheet_append_log. congruence.
  - apply keeps_sheet_append_log.
Qed.

Lemma process_attendance_step ev barcode st :
  barcode ≠ "" → headers_ok (sheet st) →
  ∃ r c, ledger_step (now ev) barcode (sheet st)
           (sheet (snd (process_attendance ev (Some barcode) st))) r c.
Proof.
  intros Hne Hh.
  destruct (update_ledger_spec ev barcode st Hh) as (s' & r & c & Hrun & Hstep).
  exists r, c.
  replace (process_attendance ev (Some barcode))
    with (record_attendance ev barcode) by (by destruct barcode).
  rewrite record_attendance_sheet, Hrun. exact Hstep.
Qed.

End ledger_steps.

(** ** What one recorded scan does to rows and columns *)

Section step_facts.

Context {now : datetime} {barcode : string} {s s' : worksheet} {r c : nat}.
Hypothesis Hh : headers_ok s.
Hypothesis Hstep : ledger_step now barcode s s' r c.

Lemma step_headers_ok : headers_ok s'.
Proof.
  destruct Hstep as (Hc & Hr & _ & _ & _ & _ & _ & Hfr & _).
  destruct Hh as (A & B & C). unfold headers_ok.
  rewrite !Hfr by (try lia; intros [=]; lia). done.
Qed.

Lemma step_column_1 i : get s' i 1 = if decide (i = r) then Some barcode else get s i 1.
Proof.
  destruct Hstep as (Hc & Hr & _ & Hfr & _ & _ & _ & Hfrm & _).
  destruct (decide (i = r)) as [->|Hne].
  - apply first_from_Some in Hfr as (_ & Hp & _).
    by apply bool_decide_eq_true in Hp.
  - apply Hfrm; [done|]. intros [=]. lia.
Qed.

Lemma step_row_1 k :
  get s' 1 k = if decide (k = c) then Some (strftime_date now) else get s 1 k.
Proof.
  destruct Hstep as (Hc & Hr & Hfc & _ & _ & _ & _ & Hfrm & _).
  destruct (decide (k = c)) as [->|Hne].
  - apply first_from_Some in Hfc as (_ & Hp & _).
    by apply bool_decide_eq_true in Hp.
  - apply Hfrm; [lia|]. congruence.
Qed.

End step_facts.

(** ** Rows of a student, columns of a date *)

Section rows_and_columns.

Lemma filter_ext_elem {A} (P Q : A → Prop)
    `{∀ x, Decision (P x)} `{∀ x, Decision (Q x)} (l : list A) :
  (∀ x, x ∈ l → P x ↔ Q x) → filter P l = filter Q l.
Proof.
  induction l as [|a l IH]; intros Hpq; [done|].
  rewrite !filter_cons.
  assert (P a ↔ Q a) as Ha by (apply Hpq; left).
  rewrite IH by (intros x Hx; apply Hpq; by right).
  destruct (decide (P a)), (decide (Q a)); tauto.
Qed.

Lemma fmap_ext_elem {A B} (f g : A → B) (l : list A) :
  (∀ x, x ∈ l → f x = g x) → f <$> l = g <$> l.
Proof.
  induction l as [|a l IH]; intros Hfg; [done|].
  rewrite !fmap_cons, IH by (intros x Hx; apply Hfg; by right).
  by rewrite (Hfg a) by left.
Qed.

Lemma first_from_head (P : nat → Prop) `{∀ i, Decision (P i)} lo n :
  first_from (λ i, bool_decide (P i)) lo n = head (filter P (seq lo n)).
Proof.
  revert lo. induction n as [|n IH]; intros lo; simpl; [done|].
  rewrite filter_cons. destruct (decide (P lo)) as [Hp|Hp].
  - by rewrite bool_decide_eq_true_2.
  - rewrite bool_decide_eq_false_2 by done. apply IH.
Qed.

Lemma find_student_row_head s b :
  find_student_row s b = head (student_rows s b).
Proof. apply (first_from_head (λ i, get s i 1 = Some b)). Qed.

Lemma find_date_column_head s d :
  find_date_column s d = head (date_columns s d).
Proof. apply (first_from_head (λ k, get s 1 k = Some d)). Qed.

Lemma head_singleton {A} (l : list A) x :
  head l = Some x → length l ≤ 1 → l = [x].
Proof.
  destruct l as [|a [|b l]]; simpl; [done | by intros [= ->] | lia].
Qed.

Lemma head_none {A} (l : list A) : head l = None → l = [].
Proof. by destruct l. Qed.

Context {now : datetime} {barcode : string} {s s' : worksheet} {r c : nat}.
Hypothesis Hh : headers_ok s.
Hypothesis Hstep : ledger_step now barcode s s' r c.

Lemma step_student_rows b :
  student_rows s' b =
  (student_rows s b ++
    (if decide (b = barcode)
     then match find_student_row s barcode with None => [r] | Some _ => [] end
     else []))%list.
Proof.
  pose proof (step_column_1 Hstep) as Hcol.
  pose proof (max_row_ge_1 s) as Hge.
  destruct Hstep as (_ & _ & _ & _ & _ & _ & Hrow & _).
  destruct Hrow as [[Hf Hm]|(Hf & Hr & Hm & _)].
  - assert (get s r 1 = Some barcode) as Hold.
    { apply first_from_Some in Hf as (_ & Hp & _).
      by apply bool_decide_eq_true in Hp. }
    rewrite Hf. replace (if decide (b = barcode) then [] else [])
      with (@nil nat) by (by destruct (decide (b = barcode))).
    rewrite app_nil_r. unfold student_rows. rewrite Hm.
    apply filter_ext_elem. intros i _. rewrite Hcol.
    destruct (decide (i = r)) as [->|]; [by rewrite Hold | done].
  - rewrite Hf. unfold student_rows. rewrite Hm.
    replace (r - 1) with (S (max_row s - 1)) by lia.
    rewrite seq_S, filter_app.
    replace (2 + (max_row s - 1)) with r by lia. f_equal.
    + apply filter_ext_elem. intros i Hi. apply elem_of_seq in Hi.
      rewrite Hcol. by rewrite decide_False by lia.
    + assert (get s' r 1 = Some barcode) as Hnew
        by (rewrite Hcol; by rewrite decide_True).
      rewrite filter_cons, filter_nil.
      destruct (decide (get s' r 1 = Some b)) as [Hp|Hp]; rewrite Hnew in Hp.
      * rewrite decide_True; [done|]. congruence.
      * rewrite decide_False; [done|]. congruence.
Qed.

Lemma step_date_columns d :
  date_columns s' d =
  (date_columns s d ++
    (if decide (d = strftime_date now)
     then match find_date_column s (strftime_date now) with
          | None => [c] | Some _ => [] end
     else []))%list.
Proof.
  pose proof (step_row_1 Hstep) as Hrow1.
  pose proof (max_column_ge_1 s) as Hge.
  destruct Hstep as (_ & _ & _ & _ & _ & Hcol & _).
  destruct Hcol as [[Hf Hm]|(Hf & Hc & Hm)].
  - assert (get s 1 c = Some (strftime_date now)) as Hold.
    { apply first_from_Some in Hf as (_ & Hp & _).
      by apply bool_decide_eq_true in Hp. }
    rewrite Hf. replace (if decide (d = strftime_date now) then [] else [])
      with (@nil nat) by (by destruct (decide (d = strftime_date now))).
    rewrite app_nil_r. unfold date_columns. rewrite Hm.
    apply filter_ext_elem. intros k _. rewrite Hrow1.
    destruct (decide (k = c)) as [->|]; [by rewrite Hold | done].
  - rewrite Hf. unfold date_columns. rewrite Hm.
    replace c with (S (max_column s)) at 1 by lia.
    rewrite seq_S, filter_app.
    replace (1 + max_column s) with c by lia. f_equal.
    + apply filter_ext_elem. intros k Hk. apply elem_of_seq in Hk.
      rewrite Hrow1. by rewrite decide_False by lia.
    + assert (get s' 1 c = Some (strftime_date now)) as Hnew
        by (rewrite Hrow1; by rewrite decide_True).
      rewrite filter_cons, filter_nil.
      destruct (decide (get s' 1 c = Some d)) as [Hp|Hp]; rewrite Hnew in Hp.
      * rewrite decide_True; [done|]. congruence.
      * rewrite decide_False; [done|]. congruence.
Qed.

Lemma step_date_headers :
  date_headers s' =
  (date_headers s ++
    match find_date_column s (strftime_date now) with
    | None => [Some (strftime_date now)]
    | Some _ => []
    end)%list.
Proof.
  pose proof (step_row_1 Hstep) as Hrow1.
  pose proof (headers_max_column s Hh) as H3.
  destruct Hstep as (_ & _ & _ & _ & _ & Hcol & _).
  destruct Hcol as [[Hf Hm]|(Hf & Hc & Hm)].
  - assert (get s 1 c = Some (strftime_date now)) as Hold.
    { apply first_from_Some in Hf as (_ & Hp & _).
      by apply bool_decide_eq_true in Hp. }
    rewrite Hf, app_nil_r. unfold date_headers. rewrite Hm.
    apply fmap_ext_elem. intros k _. rewrite Hrow1.
    destruct (decide (k = c)) as [->|]; [by rewrite Hold | done].
  - rewrite Hf. unfold date_headers. rewrite Hm.
    replace (c - 3) with (S (max_column s - 3)) by lia.
    rewrite seq_S, fmap_app.
    replace (4 + (max_column s - 3)) with c by lia. f_equal.
    + apply fmap_ext_elem. intros k Hk. apply elem_of_seq in Hk.
      rewrite Hrow1. by rewrite decide_False by lia.
    + simpl. rewrite Hrow1. by rewrite decide_True.
Qed.

End rows_and_columns.

(** ** Two scans of one student on one day *)

Section same_day.

(** After a recorded scan the student has exactly the row the scan used,
    provided the student had at most one row before. *)
Lemma step_one_row now barcode s s' r c :
  ledger_step now barcode s s' r c →
  length (student_rows s barcode) ≤ 1 →
  student_rows s' barcode = [r].
Proof.
  intros Hstep Hle. rewrite (step_student_rows Hstep).
  rewrite decide_True by done.
  destruct Hstep as (_ & _ & _ & _ & _ & _ & Hrow & _).
  destruct Hrow as [[Hf _]|(Hf & _)]; rewrite Hf.
  - rewrite find_student_row_head in Hf.
    rewrite (head_singleton _ _ Hf Hle). done.
  - rewrite find_student_row_head in Hf. by rewrite (head_none _ Hf).
Qed.

Lemma step_one_column now barcode s s' r c :
  ledger_step now barcode s s' r c →
  length (date_columns s (strftime_date now)) ≤ 1 →
  date_columns s' (strftime_date now) = [c].
Proof.
  intros Hstep Hle. rewrite (step_date_columns Hstep).
  rewrite decide_True by done.
  destruct Hstep as (_ & _ & _ & _ & _ & Hcol & _).
  destruct Hcol as [[Hf _]|(Hf & _)]; rewrite Hf.
  - rewrite find_date_column_head in Hf.
    rewrite (head_singleton _ _ Hf Hle). done.
  - rewrite find_date_column_head in Hf. by rewrite (head_none _ Hf).
Qed.

(** A scan of a student who has a row, on a date that has a column, adds
    neither. *)
Lemma step_again now barcode s s' r c r0 c0 :
  ledger_step now barcode s s' r c →
  find_student_row s barcode = Some r0 →
  find_date_column s (strftime_date now) = Some c0 →
  r = r0 ∧ c = c0 ∧ max_row s' = max_row s ∧ max_column s' = max_column s.
Proof.
  intros (_ & _ & _ & _ & _ & Hcol & Hrow & _) Hr Hc.
  destruct Hrow as [[Hf ?]|(Hf & _)]; [|congruence].
  destruct Hcol as [[Hg ?]|(Hg & _)]; [|congruence].
  split_and!; congruence.
Qed.

End same_day.

(** C1 (idempotent marking).  On a ledger with the header row of
    [initialize_excel_sheet], in which the student has at most one row and
    the date at most one column, two calls of [process_attendance] for the
    same student on the same date leave exactly one row [r] for the student
    and exactly one column [c] for the date; the cell at ([r], [c]) holds the
    time of the second call, and the second call adds no row and no
    column. *)
Theorem process_attendance_twice_same_day ev1 ev2 barcode st :
  barcode ≠ "" →
  headers_ok (sheet st) →
  length (student_rows (sheet st) barcode) ≤ 1 →
  length (date_columns (sheet st) (strftime_date (now ev1))) ≤ 1 →
  strftime_date (now ev2) = strftime_date (now ev1) →
  ∃ r c,
    let st1 := snd (process_attendance ev1 (Some barcode) st) in
    let st2 := snd (process_attendance ev2 (Some barcode) st1) in
    student_rows (sheet st2) barcode = [r]
    ∧ date_columns (sheet st2) (strftime_date (now ev1)) = [c]
    ∧ get (sheet st2) r c = Some (strftime_time (now ev2))
    ∧ max_row (sheet st2) = max_row (sheet st1)
    ∧ max_column (sheet st2) = max_column (sheet st1).
Proof.
  intros Hne Hh Hrows Hcols Hday.
  destruct (process_attendance_step ev1 barcode st Hne Hh) as (r1 & c1 & Hs1).
  set (st1 := snd (process_attendance ev1 (Some barcode) st)) in *.
  pose proof (step_headers_ok Hh Hs1) as Hh1.
  destruct (process_attendance_step ev2 barcode st1 Hne Hh1) as (r2 & c2 & Hs2).
  set (st2 := snd (process_attendance ev2 (Some barcode) st1)) in *.
  pose proof (step_one_row _ _ _ _ _ _ Hs1 Hrows) as Hr1.
  pose proof (step_one_column _ _ _ _ _ _ Hs1 Hcols) as Hc1.
  assert (find_student_row (sheet st1) barcode = Some r1) as Hf1
    by (by rewrite find_student_row_head, Hr1).
  assert (find_date_column (sheet st1) (strftime_date (now ev2)) = Some c1)
    as Hg1 by (by rewrite Hday, find_date_column_head, Hc1).
  destruct (step_again _ _ _ _ _ _ _ _ Hs2 Hf1 Hg1) as (-> & -> & Hmr & Hmc).
  exists r1, c1. simpl. split_and!.
  - apply (step_one_row _ _ _ _ _ _ Hs2). rewrite Hr1. simpl. lia.
  - rewrite <- Hday. apply (step_one_column _ _ _ _ _ _ Hs2).
    rewrite Hday, Hc1. simpl. lia.
  - by destruct Hs2 as (_ & _ & _ & _ & Ht & _).
  - done.
  - done.
Qed.

(** ** A session of scans *)

Section sessions.

Lemma initialize_headers_ok s : headers_ok (initialize_excel_sheet s).
Proof.
  unfold headers_ok, initialize_excel_sheet, header_style.
  rewrite !get_set_width, !get_set_fill, !get_set_bold, !get_set_value.
  rewrite !get_set_fill, !get_set_bold, !get_set_value.
  rewrite !get_set_fill, !get_set_bold, !get_set_value.
  done.
Qed.

Lemma process_attendance_skipped ev ob st :
  recorded (ev, ob) = false → process_attendance ev ob st = (Ok tt, st).
Proof. destruct ob as [[|a b]|]; simpl; [done | discriminate | done]. Qed.

Lemma recorded_barcode ev ob :
  recorded (ev, ob) = true → ∃ b, ob = Some b ∧ b ≠ "".
Proof. destruct ob as [[|a b]|]; simpl; [discriminate | eauto | discriminate]. Qed.

Lemma run_cons sc scans st :
  run (sc :: scans) st =
  run scans (snd (process_attendance (fst sc) (snd sc) st)).
Proof. reflexivity. Qed.

Lemma length_date_headers s : length (date_headers s) = max_column s - 3.
Proof. unfold date_headers. by rewrite length_fmap, length_seq. Qed.

(** A date has a column exactly when it is among the date headers. *)
Lemma find_date_column_headers s d :
  headers_ok s →
  is_Some (find_date_column s (strftime_date d))
  ↔ Some (strftime_date d) ∈ date_headers s.
Proof.
  intros Hh. pose proof (headers_max_column s Hh) as H3. split.
  - intros [c Hc]. apply first_from_Some in Hc as (Hr & Hp & _).
    apply bool_decide_eq_true in Hp.
    pose proof (date_column_ge_4 s d c Hh Hp ltac:(lia)) as H4.
    unfold date_headers. apply list_elem_of_fmap. exists c.
    split; [done|]. apply elem_of_seq. lia.
  - intros Hin. unfold date_headers in Hin.
    apply list_elem_of_fmap in Hin as (c & Hc & Hin).
    apply elem_of_seq in Hin.
    destruct (find_date_column s (strftime_date d)) as [c0|] eqn:E; [eauto|].
    pose proof (proj1 (first_from_None _ _ _) E c ltac:(lia)) as Hp.
    apply bool_decide_eq_false in Hp. by destruct Hp.
Qed.

Lemma NoDup_add_new acc x : NoDup acc → NoDup (add_new acc x).
Proof.
  intros H. unfold add_new. destruct (decide (x ∈ acc)); [done|].
  apply NoDup_app. split_and!; [done | | apply NoDup_singleton].
  intros y Hy Hy'. apply list_elem_of_singleton in Hy'. by subst.
Qed.

Lemma NoDup_foldl_add_new l acc : NoDup acc → NoDup (foldl add_new acc l).
Proof.
  revert acc. induction l as [|x l IH]; intros acc H; simpl; [done|].
  apply IH. by apply NoDup_add_new.
Qed.

(** The date headers after a session: the headers before, then the dates
    not yet present, in the order the recorded scans brought them. *)
Lemma run_date_headers scans st acc :
  headers_ok (sheet st) →
  date_headers (sheet st) = Some <$> acc →
  headers_ok (sheet (run scans st))
  ∧ date_headers (sheet (run scans st)) =
    Some <$> foldl add_new acc
      ((λ sc, strftime_date (now (fst sc)))
         <$> filter (λ sc, recorded sc = true) scans).
Proof.
  revert st acc. induction scans as [|[ev ob] scans IH]; intros st acc Hh Hd.
  - done.
  - rewrite run_cons, filter_cons. simpl fst. simpl snd.
    destruct (decide (recorded (ev, ob) = true)) as [Hrec|Hrec].
    + destruct (recorded_barcode _ _ Hrec) as (b & -> & Hne).
      destruct (process_attendance_step ev b st Hne Hh) as (r & c & Hstep).
      pose proof (step_headers_ok Hh Hstep) as Hh'.
      pose proof (step_date_headers Hh Hstep) as Hd'.
      rewrite fmap_cons. simpl foldl. apply IH; [done|].
      rewrite Hd', Hd. unfold add_new. simpl fst.
      pose proof (find_date_column_headers (sheet st) (now ev) Hh) as Hiff.
      rewrite Hd in Hiff.
      destruct (decide (strftime_date (now ev) ∈ acc)) as [Hin|Hin].
      * destruct Hiff as [_ Hiff].
        destruct Hiff as [c0 ->]; [|by rewrite app_nil_r].
        apply list_elem_of_fmap. eauto.
      * destruct (find_date_column (sheet st) (strftime_date (now ev)))
          as [c0|] eqn:E.
        -- destruct Hiff as [Hiff _].
           assert (Some (strftime_date (now ev)) ∈ Some <$> acc) as Hx
             by (apply Hiff; eauto).
           apply list_elem_of_fmap in Hx as (y & Heq & Hy).
           injection Heq as Heq. by rewrite Heq in Hin.
        -- by rewrite fmap_app.
    + apply not_true_is_false in Hrec.
      rewrite process_attendance_skipped by done. simpl. by apply IH.
Qed.

(** Every ledger a session builds from a new sheet has the fixed headers,
at most one row per student and at most one column per header text. *)
Lemma session_ledger_invariant scans file db log eng :
  let s := sheet (run scans
                    (State (initialize_excel_sheet Sheet.empty) file db log eng)) in
  headers_ok s
  ∧ (∀ b, length (student_rows s b) ≤ 1)
  ∧ (∀ d, length (date_columns s d) ≤ 1).
Proof.
  set (st0 := State (initialize_excel_sheet Sheet.empty) file db log eng).
  assert (headers_ok (sheet st0)
          ∧ (∀ b, length (student_rows (sheet st0) b) ≤ 1)
          ∧ (∀ d, length (date_columns (sheet st0) d) ≤ 1)) as Hinit.
  { split_and!.
    - apply initialize_headers_ok.
    - intros b. unfold student_rows.
      replace (max_row (sheet st0)) with 1 by (by vm_compute).
      simpl. lia.
    - intros d. unfold date_columns.
      replace (max_column (sheet st0)) with 3 by (by vm_compute).
      destruct (initialize_headers_ok Sheet.empty) as (A & B & C).
      simpl seq. rewrite !filter_cons, filter_nil.
      change (sheet st0) with (initialize_excel_sheet Sheet.empty).
      rewrite A, B, C.
      repeat case_decide; simpl; try lia; congruence. }
  revert Hinit. generalize st0. clear st0.
  induction scans as [|[ev ob] scans IH]; intros st (Hh & Hr & Hc); [done|].
  rewrite run_cons. simpl fst. simpl snd. apply IH.
  destruct (recorded (ev, ob)) eqn:Hrec.
  - destruct (recorded_barcode _ _ Hrec) as (b & -> & Hne).
    destruct (process_attendance_step ev b st Hne Hh) as (r & c & Hstep).
    split_and!.
    + by eapply step_headers_ok.
    + intros b'. rewrite (step_student_rows Hstep).
      destruct (decide (b' = b)) as [->|]; [|by rewrite app_nil_r].
      destruct (find_student_row (sheet st) b) eqn:E; [by rewrite app_nil_r|].
      rewrite find_student_row_head in E. by rewrite (head_none _ E).
    + intros d. rewrite (step_date_columns Hstep).
      destruct (decide (d = strftime_date (now ev))) as [->|];
        [|by rewrite app_nil_r].
      destruct (find_date_column (sheet st) _) eqn:E; [by rewrite app_nil_r|].
      rewrite find_date_column_head in E. by rewrite (head_none _ E).
  - by rewrite process_attendance_skipped.
Qed.

End sessions.

(** C7 (date columns).  Start from a new sheet set up by
    [initialize_excel_sheet] and run any sequence of scans.  The headers to
    the right of the three fixed columns are then exactly the distinct dates
    of the recorded scans (as rendered by [strftime_date], which renders
    distinct calendar dates differently), each once, in the order in which
    they were first scanned; with N such dates the sheet has 3 + N columns,
    so a scan on a date that already has a column adds none. *)
Theorem date_columns_first_seen scans file db log eng :
  let st0 := State (initialize_excel_sheet Sheet.empty) file db log eng in
  let s := sheet (run scans st0) in
  let dates :=
    first_seen ((λ sc, strftime_date (now (fst sc)))
                  <$> filter (λ sc, recorded sc = true) scans) in
  headers_ok s
  ∧ date_headers s = Some <$> dates
  ∧ NoDup dates
  ∧ max_column s = 3 + length dates.
Proof.
  intros st0 s dates.
  destruct (run_date_headers scans st0 []) as [Hh Hd].
  { apply initialize_headers_ok. }
  { by vm_compute. }
  fold s in Hh, Hd. split_and!.
  - done.
  - exact Hd.
  - apply NoDup_foldl_add_new. constructor.
  - pose proof (headers_max_column s Hh) as H3.
    pose proof (length_date_headers s) as Hl.
    assert (length (date_headers s) = length dates) as Hl'
      by (rewrite Hd; apply length_fmap).
    lia.
Qed.

(** ** Outcomes of the steps after the ledger update *)

Section outcomes.

Variable ev : env.
Hypothesis Hlog : log_open ev = None.

Lemma speak_message_ok m st :
  ∃ eng, speak_message ev m st =
         (Ok tt, State (sheet st) (excel_file st) (cloud st) (error_log st) eng).
Proof.
  unfold speak_message, try_, bind, engine_init, engine_say, raise, ret.
  destruct st as [s f c l eng]. simpl.
  destruct eng; destruct (audio ev); simpl; eauto.
Qed.

Lemma update_cloud_storage_ok barcode d t st :
  ∃ db, update_cloud_storage ev barcode d t st =
        (Ok tt, State (sheet st) (excel_file st) db
                  (error_log st ++ cloud_lines ev barcode) (engine st)).
Proof.
  unfold update_cloud_storage, cloud_lines, try_, bind, get_database, db_set,
    append_log, raise, ret.
  destruct st as [s f c l eng]. rewrite Hlog.
  destruct (remote ev); simpl; rewrite ?app_nil_r; eauto.
Qed.

Lemma save_workbook_ok barcode st :
  save_workbook ev barcode st =
  (Ok tt, State (sheet st)
            (match save ev with None => Some (sheet st) | Some _ => excel_file st end)
            (cloud st) (error_log st ++ save_lines ev barcode) (engine st)).
Proof.
  unfold save_workbook, save_lines, try_, append_log.
  destruct st as [s f c l eng]. destruct (save ev) as [e|]; simpl.
  - rewrite Hlog. by destruct (is_a PermissionError e).
  - by rewrite app_nil_r.
Qed.

(** With a writable log, a call returns normally, whatever else fails. *)
Lemma record_attendance_ok barcode st :
  headers_ok (sheet st) →
  ∃ s' r c db eng,
    ledger_step (now ev) barcode (sheet st) s' r c
    ∧ update_ledger ev barcode st = (Ok tt, with_sheet s' st)
    ∧ record_attendance ev barcode st =
      (Ok tt, State s'
                (match save ev with None => Some s' | Some _ => excel_file st end)
                db
                (error_log st ++ cloud_lines ev barcode ++ save_lines ev barcode)
                eng).
Proof.
  intros Hh.
  destruct (update_ledger_spec ev barcode st Hh) as (s' & r & c & Hrun & Hstep).
  destruct (speak_message_ok ("Attendance marked successfully for " ++ barcode)
              (with_sheet s' st)) as [eng Hsp].
  destruct (update_cloud_storage_ok barcode (strftime_date (now ev))
              (strftime_time (now ev))
              (State s' (excel_file st) (cloud st) (error_log st) eng))
    as [db Hcl].
  exists s', r, c, db, eng. split_and!; [done | done |].
  unfold record_attendance, try_.
  erewrite bind_ok by exact Hrun.
  erewrite bind_ok by exact Hsp.
  erewrite bind_ok by exact Hcl.
  rewrite save_workbook_ok. simpl. by rewrite <- app_assoc.
Qed.

End outcomes.

Lemma ledger_cell_after now barcode s s' r c :
  ledger_step now barcode s s' r c →
  ledger_cell s' barcode (strftime_date now) = Some (strftime_time now).
Proof.
  intros (_ & _ & Hc & Hr & Ht & _). unfold ledger_cell. by rewrite Hr, Hc.
Qed.



(** C10 (empty-identifier guard).  For an absent ([None]) or empty
    identifier [process_attendance] returns at once and the whole state
    (sheet, saved file, remote database, error log, speech engine) is
    unchanged. *)
Theorem process_attendance_guard ev st :
  process_attendance ev None st = (Ok tt, st)
  ∧ process_attendance ev (Some "") st = (Ok tt, st).
Proof. split; reflexivity. Qed.

(** ** The year of a row *)

Lemma year_at_default i barcode :
  (String.length barcode ≤ i
   ∨ ∃ ch, String.get i barcode = Some ch ∧ is_ascii_digit ch = false) →
  year_at i barcode = "Not Specified".
Proof.
  unfold year_at. intros [Hlen|(ch & -> & ->)]; [|done].
  by rewrite string_get_ge.
Qed.

(** C6 (short identifier).  For an identifier of fewer than three
    characters, or whose third character is not a digit, the row-creation
    path ([add_student_row]) returns normally with the year cell of the new
    row set to "Not Specified"; and a call of [process_attendance] for such
    an identifier without a row returns normally (the log being writable),
    logs no processing error and leaves "Not Specified" in that cell. *)
Theorem short_identifier_year_default ev barcode st :
  (String.length barcode < 3
   ∨ ∃ ch, String.get 2 barcode = Some ch ∧ is_ascii_digit ch = false) →
  let r := max_row (sheet st) + 1 in
  (∃ st', add_student_row ev barcode st = (Ok r, st')
          ∧ get (sheet st') r 2 = Some "Not Specified")
  ∧ (barcode ≠ "" → headers_ok (sheet st) →
     find_student_row (sheet st) barcode = None → log_open ev = None →
     let res := process_attendance ev (Some barcode) st in
     fst res = Ok tt
     ∧ get (sheet (snd res)) r 2 = Some "Not Specified"
     ∧ error_log (snd res)
       = (error_log st ++ cloud_lines ev barcode ++ save_lines ev barcode)%list).
Proof.
  intros Hshort r.
  assert (year_at 2 barcode = "Not Specified") as Hy.
  { apply year_at_default. destruct Hshort as [?|?]; [left; lia | by right]. }
  split.
  - rewrite add_student_row_run. eexists. split; [reflexivity|].
    simpl. rewrite !get_set_value. rewrite decide_False by (intros [=]).
    rewrite decide_True by done. by rewrite Hy.
  - intros Hne Hh Hnone Hlog res. subst res.
    replace (process_attendance ev (Some barcode))
      with (record_attendance ev barcode) by (by destruct barcode).
    destruct (record_attendance_ok ev Hlog barcode st Hh)
      as (s' & r' & c & db & eng & Hstep & _ & ->). simpl.
    destruct Hstep as (_ & _ & _ & _ & _ & _ & Hrow & _).
    destruct Hrow as [[Hf _]|(_ & -> & _ & Hyear & _)]; [congruence|].
    split_and!; [done | | done]. fold r in Hyear. by rewrite Hyear, Hy.
Qed.

(** C2 (one rule for the year on both paths): the code does not do this.
    The row-creation path reads [barcode[2]], the update path reads
    [barcode[1]].  For the identifier A13CD the first scan writes the year
    5 - 3 = 2 and the second scan of the same student overwrites it with
    5 - 1 = 4. *)
Theorem update_path_reads_second_character :
  let st1 := snd (process_attendance (Example.calm Example.morning)
                    (Some "A13CD") Example.fresh) in
  let st2 := snd (process_attendance (Example.calm Example.noon)
                    (Some "A13CD") st1) in
  find_student_row (sheet st1) "A13CD" = Some 2
  ∧ get (sheet st1) 2 2 = Some "2"
  ∧ get (sheet st2) 2 2 = Some "4"
  ∧ year_at 2 "A13CD" = "2"
  ∧ year_at 1 "A13CD" = "4".
Proof. vm_compute. done. Qed.

(** ** The face registry *)

Section registry_facts.

Context {image location encoding : Type}.
Variable face_locations : image → list location.
Variable face_encodings : image → list location → list encoding.
Variable face_distance : encoding → encoding → Q.

Local Abbreviation is_match := (is_match face_distance).
Local Abbreviation first_known := (first_known face_distance).
Local Abbreviation first_face := (first_face face_distance).

Lemma is_match_le known candidate :
  is_match known candidate = true ↔ (face_distance known candidate <= 1 # 2)%Q.
Proof. unfold is_match, compare_faces. simpl. apply Qle_bool_iff. Qed.

Lemma first_known_Some candidate items roll_no :
  first_known candidate items = Some roll_no →
  ∃ known, (roll_no, known) ∈ items ∧ is_match known candidate = true.
Proof.
  induction items as [|[k v] items IH]; simpl; [done|].
  destruct (is_match v candidate) eqn:E.
  - intros [= <-]. exists v. split; [left | done].
  - intros H. destruct (IH H) as (known & Hin & Hm).
    exists known. split; [by right | done].
Qed.

Lemma first_known_None candidate items :
  first_known candidate items = None ↔
  ∀ roll_no known, (roll_no, known) ∈ items → is_match known candidate = false.
Proof.
  induction items as [|[k v] items IH]; simpl.
  - split; [|done]. intros _ r kn Hin. by apply elem_of_nil in Hin.
  - destruct (is_match v candidate) eqn:E.
    + split; [done|]. intros H. rewrite (H k v) in E by left. done.
    + rewrite IH. split.
      * intros H r kn Hin. apply elem_of_cons in Hin as [[= -> ->]|Hin];
          [done | by eapply H].
      * intros H r kn Hin. eapply H. by right.
Qed.

Lemma first_face_Some faces items roll_no :
  first_face faces items = Some roll_no →
  ∃ candidate known,
    candidate ∈ faces ∧ (roll_no, known) ∈ items
    ∧ is_match known candidate = true.
Proof.
  induction faces as [|f faces IH]; simpl; [done|].
  destruct (first_known f items) as [r|] eqn:E.
  - intros [= <-]. apply first_known_Some in E as (known & Hin & Hm).
    exists f, known. split_and!; [left | done | done].
  - intros H. destruct (IH H) as (cand & known & Hc & Hin & Hm).
    exists cand, known. split_and!; [by right | done | done].
Qed.

Lemma first_face_None faces items :
  first_face faces items = None ↔
  ∀ candidate roll_no known,
    candidate ∈ faces → (roll_no, known) ∈ items →
    is_match known candidate = false.
Proof.
  induction faces as [|f faces IH]; simpl.
  - split; [|done]. intros _ cand r kn Hin. by apply elem_of_nil in Hin.
  - destruct (first_known f items) as [r|] eqn:E.
    + split; [done|]. intros H.
      apply first_known_Some in E as (known & Hin & Hm).
      rewrite (H f r known) in Hm; [done | left | done].
    + rewrite IH. split.
      * intros H cand r kn Hc Hin.
        apply elem_of_cons in Hc as [->|Hc]; [|by eapply H].
        by eapply (proj1 (first_known_None _ _) E).
      * intros H cand r kn Hc Hin. eapply H; [by right | done].
Qed.

End registry_facts.

(** C3 (registration rejection).  When the number of face regions found in
    the image is not one, [register_face] returns [(False, "Please ensure
    only one face is visible for registration.")] and the encodings file is
    exactly as before: the same keys with the same encodings.  No reference
    image is written either. *)
Theorem register_face_rejects_ambiguous_image
    {image location encoding : Type}
    (face_locations : image → list location)
    (face_encodings : image → list location → list encoding)
    (img : image) (roll_no : string) (fs : files image encoding) :
  length (face_locations img) ≠ 1 →
  let res := register_face face_locations face_encodings img roll_no fs in
  fst res = Ok (false, "Please ensure only one face is visible for registration.")
  ∧ encodings_file (snd res) = encodings_file fs
  ∧ load_encodings (snd res) = load_encodings fs
  ∧ default ∅ (faces_dir (snd res)) = default ∅ (faces_dir fs).
Proof.
  intros Hlen res. subst res. unfold register_face.
  destruct (length (face_locations img) =? 1) eqn:E.
  - apply Nat.eqb_eq in E. done.
  - simpl. unfold ensure_dirs, load_encodings.
    destruct (faces_dir fs) eqn:F; simpl; rewrite ?F; done.
Qed.

(** C5 (matcher threshold), as the code has it.  A stored encoding and a
    candidate encoding match exactly when their distance is at most 0.5
    (the tolerance itself included), and [recognize_face]'s search over the
    faces of a frame and the stored encodings finds nothing exactly when
    every such pair is farther apart than 0.5. *)
Theorem match_iff_distance_at_most_tolerance
    {encoding : Type} (face_distance : encoding → encoding → Q)
    (known candidate : encoding)
    (faces : list encoding) (items : list (string * encoding)) :
  (is_match face_distance known candidate = true
   ↔ (face_distance known candidate <= 1 # 2)%Q)
  ∧ (first_face face_distance faces items = None
     ↔ ∀ c roll_no k, c ∈ faces → (roll_no, k) ∈ items →
         ¬ (face_distance k c <= 1 # 2)%Q).
Proof.
  split; [apply is_match_le|].
  rewrite first_face_None. split.
  - intros H c r k Hc Hin Hle. apply is_match_le in Hle.
    rewrite (H c r k) in Hle; done.
  - intros H c r k Hc Hin. apply not_true_is_false. intros Hm.
    apply is_match_le in Hm. by eapply H.
Qed.

(** C5 as stated does not hold: at a distance of exactly 0.5, which is not
    strictly below the tolerance, the encodings match and the stored
    identifier is returned. *)
Lemma match_at_exact_tolerance :
  Example.distance 0 (1 # 2) == 1 # 2
  ∧ ¬ (Example.distance 0 (1 # 2) < 1 # 2)%Q
  ∧ is_match Example.distance 0%Q (1 # 2) = true
  ∧ recognize_face Example.locate Example.encode Example.distance
      [1 # 2] Example.registry = Some "S1".
Proof.
  split_and!; [reflexivity | | reflexivity | reflexivity].
  intros H. vm_compute in H. discriminate.
Qed.

(** C9 (recognition result).  [recognize_face] returns either nothing or a
    key of the stored encodings; it returns nothing when no encodings are
    stored and when no face region is found. *)
Theorem recognize_face_returns_registered
    {image location encoding : Type}
    (face_locations : image → list location)
    (face_encodings : image → list location → list encoding)
    (face_distance : encoding → encoding → Q)
    (img : image) (fs : files image encoding) :
  let res := recognize_face face_locations face_encodings face_distance img fs in
  match res with
  | Some roll_no => roll_no ∈ dict_keys (load_encodings fs)
  | None => True
  end
  ∧ (load_encodings fs = [] → res = None)
  ∧ (face_locations img = [] → res = None).
Proof.
  intros res. subst res. unfold recognize_face. split_and!.
  - destruct (load_encodings fs) as [|kv d] eqn:Ed; [done|].
    destruct (face_locations img) as [|l ls]; [done|].
    destruct (first_face _ _ _) as [r|] eqn:E; [|done].
    apply first_face_Some in E as (cand & known & _ & Hin & _).
    unfold dict_keys. apply list_elem_of_fmap. by exists (r, known).
  - by intros ->.
  - intros ->. by destruct (load_encodings fs).
Qed.

(** ** The theorems at concrete inputs *)

Section witnesses.

Import Example.

(** C1 on a new ledger: a calm morning scan, then a noon scan of the same
    student during which the remote database and the save fail. *)
Lemma process_attendance_twice_same_day_witness :
  ∃ r c,
    let st1 := snd (process_attendance (calm morning) (Some "A13CD") fresh) in
    let st2 := snd (process_attendance (stormy noon) (Some "A13CD") st1) in
    student_rows (sheet st2) "A13CD" = [r]
    ∧ date_columns (sheet st2) (strftime_date (now (calm morning))) = [c]
    ∧ get (sheet st2) r c = Some (strftime_time (now (stormy noon)))
    ∧ max_row (sheet st2) = max_row (sheet st1)
    ∧ max_column (sheet st2) = max_column (sheet st1).
Proof.
  apply (process_attendance_twice_same_day
           (calm morning) (stormy noon) "A13CD" fresh).
  - discriminate.
  - vm_compute. repeat split.
  - vm_compute. lia.
  - vm_compute. lia.
  - reflexivity.
Defined.

(** C3 on a frame with two faces. *)
Lemma register_face_rejects_ambiguous_image_witness :
  length (locate [0%Q; 3%Q]) ≠ 1
  ∧ fst (register_face locate encode [0%Q; 3%Q] "S9" registry)
    = Ok (false, "Please ensure only one face is visible for registration.")
  ∧ encodings_file (snd (register_face locate encode [0%Q; 3%Q] "S9" registry))
    = encodings_file registry.
Proof.
  assert (length (locate [0%Q; 3%Q]) ≠ 1) as H by (simpl; lia).
  split; [exact H|].
  destruct (register_face_rejects_ambiguous_image
              locate encode [0%Q; 3%Q] "S9" registry H) as (H1 & H2 & _).
  split; [exact H1 | exact H2].
Defined.


(** C6 on a new ledger, for the two-character identifier AB. *)
Lemma short_identifier_year_default_witness :
  String.length "AB" < 3
  ∧ get (sheet (snd (process_attendance (calm morning) (Some "AB") fresh))) 2 2
    = Some "Not Specified".
Proof.
  assert (String.length "AB" < 3) as H by (simpl; lia).
  split; [exact H|].
  destruct (short_identifier_year_default (calm morning) "AB" fresh (or_introl H))
    as (_ & H2).
  destruct H2 as (_ & H3 & _).
  - discriminate.
  - vm_compute. repeat split.
  - reflexivity.
  - reflexivity.
  - exact H3.
Defined.


End witnesses.

(** * Further properties *)

(** ** Dicts in insertion order *)

Section dicts.

Context {V : Type}.
Implicit Types (d : list (string * V)) (k : string) (v : V).

Lemma dict_get_set_eq k v d : dict_get k (dict_set k v d) = Some v.
Proof.
  induction d as [|[k' v'] d IH]; simpl.
  - by rewrite decide_True.
  - destruct (decide (k' = k)) as [->|Hne]; simpl.
    + by rewrite decide_True.
    + by rewrite decide_False.
Qed.

Lemma dict_get_set_ne k k' v d :
  k' ≠ k → dict_get k' (dict_set k v d) = dict_get k' d.
Proof.
  intros Hne. induction d as [|[k0 v0] d IH]; simpl.
  - by rewrite decide_False.
  - destruct (decide (k0 = k)) as [->|Hne0]; simpl.
    + by rewrite !decide_False.
    + by rewrite IH.
Qed.

Lemma dict_keys_set_old k v d :
  k ∈ dict_keys d → dict_keys (dict_set k v d) = dict_keys d.
Proof.
  unfold dict_keys. induction d as [|[k0 v0] d IH]; simpl.
  - intros H. by apply elem_of_nil in H.
  - destruct (decide (k0 = k)) as [->|Hne]; simpl; [done|].
    intros [?|?]%elem_of_cons; [congruence|]. f_equal. by apply IH.
Qed.

Lemma dict_keys_set_new k v d :
  k ∉ dict_keys d → dict_keys (dict_set k v d) = (dict_keys d ++ [k])%list.
Proof.
  unfold dict_keys. induction d as [|[k0 v0] d IH]; simpl; [done|].
  intros [Hne Hin]%not_elem_of_cons.
  rewrite decide_False by done. simpl. f_equal. by apply IH.
Qed.

Lemma dict_keys_del k d :
  dict_keys (dict_del k d) = filter (λ k', k' ≠ k) (dict_keys d).
Proof.
  unfold dict_keys, dict_del. induction d as [|[k0 v0] d IH]; [done|].
  rewrite fmap_cons, !filter_cons. cbn [fst].
  destruct (decide (k0 ≠ k)); [rewrite fmap_cons; cbn [fst]; f_equal|];
    exact IH.
Qed.

Lemma dict_get_del_eq k d : dict_get k (dict_del k d) = None.
Proof.
  unfold dict_del. induction d as [|[k0 v0] d IH]; [done|].
  rewrite filter_cons. simpl. destruct (decide (k0 ≠ k)) as [Hne|Heq]; simpl.
  - by rewrite decide_False.
  - done.
Qed.

Lemma dict_get_del_ne k k' d :
  k' ≠ k → dict_get k' (dict_del k d) = dict_get k' d.
Proof.
  intros Hne. unfold dict_del. induction d as [|[k0 v0] d IH]; [done|].
  rewrite filter_cons. simpl. destruct (decide (k0 ≠ k)) as [H0|H0]; simpl.
  - by rewrite IH.
  - apply dec_stable in H0. subst k0. by rewrite decide_False.
Qed.

Lemma dict_del_absent k d : k ∉ dict_keys d → dict_del k d = d.
Proof.
  unfold dict_keys, dict_del. induction d as [|[k0 v0] d IH]; [done|].
  rewrite fmap_cons, filter_cons. simpl. intros Hin.
  apply not_elem_of_cons in Hin as [Hne Hin].
  rewrite decide_True by done. by rewrite IH.
Qed.

Lemma dict_del_set_fresh k v d :
  k ∉ dict_keys d → dict_del k (dict_set k v d) = d.
Proof.
  unfold dict_keys, dict_del. induction d as [|[k0 v0] d IH]; simpl.
  - intros _. rewrite filter_cons. simpl. by rewrite decide_False by tauto.
  - intros Hin. apply not_elem_of_cons in Hin as [Hne Hin].
    rewrite decide_False by done. rewrite filter_cons. simpl.
    rewrite decide_True by done. by rewrite IH.
Qed.

Lemma dict_get_None k d : dict_get k d = None ↔ k ∉ dict_keys d.
Proof.
  unfold dict_keys. induction d as [|[k0 v0] d IH]; simpl.
  - split; [intros _; apply not_elem_of_nil | done].
  - destruct (decide (k0 = k)) as [->|Hne].
    + split; [done|]. intros H. destruct H. left.
    + rewrite IH. rewrite not_elem_of_cons.
      split; [intros H; split; [congruence | done] | by intros [_ H]].
Qed.

End dicts.

(** ** Registering and deregistering faces *)

Section registration.

Context {image location encoding : Type}.
Variable face_locations : image → list location.
Variable face_encodings : image → list location → list encoding.
Variable face_distance : encoding → encoding → Q.

Lemma register_face_run img roll_no (fs : files image encoding) enc rest :
  length (face_locations img) = 1 →
  face_encodings img (face_locations img) = enc :: rest →
  register_face face_locations face_encodings img roll_no fs =
  (Ok (true, "Face registered successfully."),
   Files (Some (dict_set roll_no enc (load_encodings fs)))
         (Some (<[roll_no ++ ".jpg" := img]> (default ∅ (faces_dir fs))))).
Proof.
  intros Hlen Henc. unfold register_face. rewrite Hlen, Henc. simpl.
  unfold imwrite, save_encodings, ensure_dirs, load_encodings.
  destruct (faces_dir fs) eqn:F; simpl; rewrite ?F; reflexivity.
Qed.

Lemma deregister_face_run roll_no (fs : files image encoding) :
  deregister_face roll_no fs =
  Files (match encodings_file fs with
         | Some d => Some (dict_del roll_no d)
         | None => None
         end)
        (match faces_dir fs with
         | Some imgs => Some (delete (roll_no ++ ".jpg") imgs)
         | None => None
         end).
Proof.
  unfold deregister_face. destruct fs as [[d|] dir]; simpl.
  - destruct (decide (roll_no ∈ dict_keys d)) as [Hin|Hin]; simpl.
    + by destruct dir.
    + rewrite dict_del_absent by done. by destruct dir.
  - by destruct dir.
Qed.

Lemma is_match_first_known cand items roll_no known :
  (roll_no, known) ∈ items → is_match face_distance known cand = true →
  is_Some (first_known face_distance cand items).
Proof.
  intros Hin Hm.
  destruct (first_known face_distance cand items) eqn:E; [eauto|].
  rewrite (proj1 (first_known_None face_distance _ _) E _ _ Hin) in Hm.
  discriminate.
Qed.

Lemma dict_set_elem {V} k (v : V) d : (k, v) ∈ dict_set k v d.
Proof.
  induction d as [|[k0 v0] d IH]; simpl; [left|].
  destruct (decide (k0 = k)); [left | by right].
Qed.

Lemma first_known_prefix cand l1 roll_no known l2 :
  Forall (λ kv, is_match face_distance (snd kv) cand = false) l1 →
  is_match face_distance known cand = true →
  first_known face_distance cand (l1 ++ (roll_no, known) :: l2) = Some roll_no.
Proof.
  intros Hl1 Hm. induction Hl1 as [|[k v] l1 Hkv _ IH]; simpl.
  - by rewrite Hm.
  - simpl in Hkv. by rewrite Hkv.
Qed.

End registration.

(** X1.  A frame with exactly one face is registered: [register_face]
    returns [(True, "Face registered successfully.")]; afterwards the stored
    encoding of [roll_no] is the encoding of that face, every other
    identifier has the encoding it had, and the frame is kept as
    [roll_no.jpg]. *)
Theorem register_face_stores_encoding
    {image location encoding : Type}
    (face_locations : image → list location)
    (face_encodings : image → list location → list encoding)
    (img : image) (roll_no : string) (fs : files image encoding)
    (enc : encoding) (rest : list encoding) :
  length (face_locations img) = 1 →
  face_encodings img (face_locations img) = enc :: rest →
  let res := register_face face_locations face_encodings img roll_no fs in
  fst res = Ok (true, "Face registered successfully.")
  ∧ dict_get roll_no (load_encodings (snd res)) = Some enc
  ∧ (∀ k, k ≠ roll_no →
       dict_get k (load_encodings (snd res)) = dict_get k (load_encodings fs))
  ∧ faces_dir (snd res)
    = Some (<[roll_no ++ ".jpg" := img]> (default ∅ (faces_dir fs))).
Proof.
  intros Hlen Henc res. subst res.
  rewrite (register_face_run _ _ _ _ _ _ _ Hlen Henc). simpl.
  split_and!; [done | apply dict_get_set_eq | | done].
  intros k Hk. by apply dict_get_set_ne.
Qed.

(** X2.  Registration keeps the order of the stored identifiers, which is
    the order in which [recognize_face] tries them: an identifier that is
    registered again keeps its place, a new one goes last. *)
Theorem register_face_keeps_order
    {image location encoding : Type}
    (face_locations : image → list location)
    (face_encodings : image → list location → list encoding)
    (img : image) (roll_no : string) (fs : files image encoding)
    (enc : encoding) (rest : list encoding) :
  length (face_locations img) = 1 →
  face_encodings img (face_locations img) = enc :: rest →
  let keys := dict_keys (load_encodings fs) in
  let keys' := dict_keys (load_encodings
                 (snd (register_face face_locations face_encodings img roll_no fs))) in
  (roll_no ∈ keys → keys' = keys)
  ∧ (roll_no ∉ keys → keys' = (keys ++ [roll_no])%list).
Proof.
  intros Hlen Henc keys keys'. subst keys keys'.
  rewrite (register_face_run _ _ _ _ _ _ _ Hlen Henc). simpl.
  split; [apply dict_keys_set_old | apply dict_keys_set_new].
Qed.

(** X3.  [deregister_face] removes the identifier and its reference image
    and nothing else: the other identifiers keep their encodings and their
    order, the other images stay, and no encodings file is created when
    there was none. *)
Theorem deregister_face_removes_only_that_face
    {image encoding : Type} (roll_no : string) (fs : files image encoding) :
  let fs' := deregister_face roll_no fs in
  dict_get roll_no (load_encodings fs') = None
  ∧ (∀ k, k ≠ roll_no →
       dict_get k (load_encodings fs') = dict_get k (load_encodings fs))
  ∧ dict_keys (load_encodings fs')
    = filter (λ k, k ≠ roll_no) (dict_keys (load_encodings fs))
  ∧ default ∅ (faces_dir fs') !! (roll_no ++ ".jpg") = None
  ∧ (∀ name, name ≠ roll_no ++ ".jpg" →
       default ∅ (faces_dir fs') !! name = default ∅ (faces_dir fs) !! name)
  ∧ (encodings_file fs = None → encodings_file fs' = None).
Proof.
  intros fs'. subst fs'. rewrite deregister_face_run.
  destruct fs as [[d|] dir]; unfold load_encodings; simpl.
  - split_and!.
    + apply dict_get_del_eq.
    + intros k Hk. by apply dict_get_del_ne.
    + apply dict_keys_del.
    + destruct dir; simpl; [apply lookup_delete_eq | done].
    + intros name Hn. destruct dir; simpl; [by apply lookup_delete_ne | done].
    + done.
  - split_and!; try done.
    + destruct dir; simpl; [apply lookup_delete_eq | done].
    + intros name Hn. destruct dir; simpl; [by apply lookup_delete_ne | done].
Qed.

(** X4.  Deregistering an identifier that is not registered and has no
    reference image changes nothing. *)
Theorem deregister_face_absent_is_noop
    {image encoding : Type} (roll_no : string) (fs : files image encoding) :
  roll_no ∉ dict_keys (load_encodings fs) →
  default ∅ (faces_dir fs) !! (roll_no ++ ".jpg") = None →
  deregister_face roll_no fs = fs.
Proof.
  intros Hk Himg. rewrite deregister_face_run.
  destruct fs as [[d|] [imgs|]]; unfold load_encodings in Hk; simpl in *.
  - by rewrite dict_del_absent, delete_id.
  - by rewrite dict_del_absent.
  - by rewrite delete_id.
  - done.
Qed.

(** X5.  Registering a new identifier and deregistering it again gives back
    the stored encodings, in their order, and the reference images. *)
Theorem register_then_deregister
    {image location encoding : Type}
    (face_locations : image → list location)
    (face_encodings : image → list location → list encoding)
    (img : image) (roll_no : string) (fs : files image encoding)
    (enc : encoding) (rest : list encoding) :
  length (face_locations img) = 1 →
  face_encodings img (face_locations img) = enc :: rest →
  roll_no ∉ dict_keys (load_encodings fs) →
  default ∅ (faces_dir fs) !! (roll_no ++ ".jpg") = None →
  let fs' := deregister_face roll_no
               (snd (register_face face_locations face_encodings img roll_no fs)) in
  load_encodings fs' = load_encodings fs
  ∧ default ∅ (faces_dir fs') = default ∅ (faces_dir fs).
Proof.
  intros Hlen Henc Hk Himg fs'. subst fs'.
  rewrite (register_face_run _ _ _ _ _ _ _ Hlen Henc), deregister_face_run.
  unfold load_encodings at 1. simpl. split.
  - by apply dict_del_set_fresh.
  - rewrite delete_insert_eq. by apply delete_id.
Qed.

(** X6.  After a frame is registered, [recognize_face] recognizes that same
    frame (an encoding being at distance at most 0.5 from itself): it
    returns a stored identifier, and the registered one if nothing else was
    stored. *)
Theorem registered_frame_is_recognized
    {image location encoding : Type}
    (face_locations : image → list location)
    (face_encodings : image → list location → list encoding)
    (face_distance : encoding → encoding → Q)
    (img : image) (roll_no : string) (fs : files image encoding)
    (enc : encoding) (rest : list encoding) :
  length (face_locations img) = 1 →
  face_encodings img (face_locations img) = enc :: rest →
  (face_distance enc enc <= 1 # 2)%Q →
  let fs' := snd (register_face face_locations face_encodings img roll_no fs) in
  let res := recognize_face face_locations face_encodings face_distance img fs' in
  (∃ r, res = Some r ∧ r ∈ dict_keys (load_encodings fs'))
  ∧ (load_encodings fs = [] → res = Some roll_no).
Proof.
  intros Hlen Henc Hself fs' res. subst fs' res.
  rewrite (register_face_run _ _ _ _ _ _ _ Hlen Henc).
  unfold recognize_face. rewrite Henc.
  change (load_encodings (snd (_, Files (Some ?x) _))) with x.
  assert (is_match face_distance enc enc = true) as Hm by (by apply is_match_le).
  destruct (is_match_first_known face_distance enc
              (dict_set roll_no enc (load_encodings fs)) roll_no enc)
    as [r Hr]; [apply dict_set_elem | done |].
  assert (r ∈ dict_keys (dict_set roll_no enc (load_encodings fs))) as Hkey.
  { apply first_known_Some in Hr as (known & Hin & _).
    unfold dict_keys. apply list_elem_of_fmap. by exists (r, known). }
  assert (load_encodings fs = [] → r = roll_no) as Hone.
  { intros Hempty. rewrite Hempty in Hr. simpl in Hr. rewrite Hm in Hr.
    congruence. }
  destruct (dict_set roll_no enc (load_encodings fs)) as [|kv d]; [done|].
  destruct (face_locations img) as [|l ls]; [discriminate|].
  cbn [first_face]. rewrite Hr. split; [eauto|].
  intros Hempty. by rewrite Hone.
Qed.

(** X7.  The first stored identifier that matches wins, whatever follows it:
    when the frame shows one face, no identifier stored before [roll_no]
    matches it and [roll_no] does, [recognize_face] returns [roll_no], even
    if a later identifier is closer. *)
Theorem recognize_face_first_match_wins
    {image location encoding : Type}
    (face_locations : image → list location)
    (face_encodings : image → list location → list encoding)
    (face_distance : encoding → encoding → Q)
    (img : image) (fs : files image encoding)
    (cand known : encoding) (roll_no : string)
    (before after : list (string * encoding)) :
  face_locations img ≠ [] →
  face_encodings img (face_locations img) = [cand] →
  load_encodings fs = (before ++ (roll_no, known) :: after)%list →
  Forall (λ kv, ¬ (face_distance (snd kv) cand <= 1 # 2)%Q) before →
  (face_distance known cand <= 1 # 2)%Q →
  recognize_face face_locations face_encodings face_distance img fs
  = Some roll_no.
Proof.
  intros Hloc Henc Hload Hbefore Hknown. unfold recognize_face.
  rewrite Hload, Henc.
  destruct (before ++ (roll_no, known) :: after)%list as [|kv d] eqn:E.
  { by destruct before. }
  destruct (face_locations img); [done|]. rewrite <- E. simpl.
  rewrite first_known_prefix; [done | | by apply is_match_le].
  eapply Forall_impl; [exact Hbefore|]. intros kv' Hkv. simpl in Hkv.
  apply not_true_is_false. intros Hm. by apply is_match_le in Hm.
Qed.

(** ** One scan changes one ledger cell *)

Section one_cell.

Context {now : datetime} {barcode : string} {s s' : worksheet} {r c : nat}.
Hypothesis Hh : headers_ok s.
Hypothesis Hstep : ledger_step now barcode s s' r c.

Lemma step_find_student_row b :
  b ≠ barcode → find_student_row s' b = find_student_row s b.
Proof.
  intros Hne. rewrite !find_student_row_head, (step_student_rows Hstep).
  rewrite decide_False by done. by rewrite app_nil_r.
Qed.

Lemma step_find_date_column d :
  d ≠ strftime_date now → find_date_column s' d = find_date_column s d.
Proof.
  intros Hne. rewrite !find_date_column_head, (step_date_columns Hstep).
  rewrite decide_False by done. by rewrite app_nil_r.
Qed.

Lemma found_row s0 b r0 :
  find_student_row s0 b = Some r0 → 2 ≤ r0 ∧ get s0 r0 1 = Some b.
Proof.
  intros H. apply first_from_Some in H as (Hr & Hp & _).
  apply bool_decide_eq_true in Hp. split; [lia | done].
Qed.

Lemma found_column s0 d c0 :
  find_date_column s0 d = Some c0 → 1 ≤ c0 ∧ get s0 1 c0 = Some d.
Proof.
  intros H. apply first_from_Some in H as (Hr & Hp & _).
  apply bool_decide_eq_true in Hp. split; [lia | done].
Qed.

Lemma get_beyond_rows s0 i k : max_row s0 < i → get s0 i k = None.
Proof.
  intros Hlt. destruct (get s0 i k) eqn:E; [|done].
  apply get_Some_bounds in E. lia.
Qed.

Lemma get_beyond_columns s0 i k : max_column s0 < k → get s0 i k = None.
Proof.
  intros Hlt. destruct (get s0 i k) eqn:E; [|done].
  apply get_Some_bounds in E. lia.
Qed.

(** The cell of another student is as before, on every date. *)
Lemma step_other_student b dt :
  b ≠ barcode →
  ledger_cell s' b (strftime_date dt) = ledger_cell s b (strftime_date dt).
Proof.
  intros Hne. unfold ledger_cell. rewrite (step_find_student_row b Hne).
  destruct (find_student_row s b) as [r'|] eqn:Er; [|done].
  assert (2 ≤ r' ∧ r' ≠ r) as [Hr2 Hrr].
  { pose proof Er as Er'. rewrite <- (step_find_student_row b Hne) in Er'.
    apply found_row in Er' as [? Hb].
    destruct Hstep as (_ & _ & _ & Hf & _). apply found_row in Hf as [_ Hbc].
    split; [done|]. intros ->. congruence. }
  destruct Hstep as (Hc4 & _ & Hfc & _ & _ & Hcol & _ & Hfrm & _).
  destruct (decide (strftime_date dt = strftime_date now)) as [->|Hd].
  - rewrite Hfc. rewrite Hfrm by (try done; intros [=]; lia).
    destruct Hcol as [[-> _]|(-> & -> & _)]; [done|].
    apply get_beyond_columns. lia.
  - rewrite (step_find_date_column _ Hd).
    destruct (find_date_column s (strftime_date dt)) as [c'|]; [|done].
    apply Hfrm; [done|]. intros [=]. lia.
Qed.

(** The cell of the scanned student on another date is as before. *)
Lemma step_other_date dt :
  strftime_date dt ≠ strftime_date now →
  ledger_cell s' barcode (strftime_date dt)
  = ledger_cell s barcode (strftime_date dt).
Proof.
  intros Hd. unfold ledger_cell. rewrite (step_find_date_column _ Hd).
  destruct Hstep as (Hc4 & Hr2 & Hfc & Hfr & _ & _ & Hrow & _ & Hsame).
  rewrite Hfr.
  destruct (find_date_column s (strftime_date dt)) as [c'|] eqn:Ec.
  - apply found_column in Ec as [Hc1 Hc'].
    pose proof (date_column_ge_4 s dt c' Hh Hc' Hc1) as H4.
    assert (c' ≠ c) as Hcc.
    { intros ->. destruct Hstep as (_ & _ & _ & _ & _ & Hcol & _).
      destruct Hcol as [[Hf _]|(_ & -> & _)].
      - apply found_column in Hf as [_ Hf]. congruence.
      - apply get_Some_bounds in Hc'. lia. }
    rewrite Hsame by done.
    destruct Hrow as [[-> _]|(-> & -> & _)]; [done|].
    apply get_beyond_rows. lia.
  - by destruct (find_student_row s barcode).
Qed.

Lemma step_ledger_cell b dt :
  ledger_cell s' b (strftime_date dt) =
  if decide (b = barcode ∧ strftime_date dt = strftime_date now)
  then Some (strftime_time now)
  else ledger_cell s b (strftime_date dt).
Proof.
  destruct (decide (b = barcode ∧ strftime_date dt = strftime_date now))
    as [[-> ->]|Hne].
  - by eapply ledger_cell_after.
  - destruct (decide (b = barcode)) as [->|Hb]; [|by apply step_other_student].
    apply step_other_date. tauto.
Qed.

End one_cell.

(** ** The row of a student over a session *)

Section student_rows_over_time.

Lemma update_ledger_existing_row ev barcode st r k :
  headers_ok (sheet st) →
  find_student_row (sheet st) barcode = Some r →
  k = 1 ∨ k = 3 →
  get (sheet (snd (update_ledger ev barcode st))) r k = get (sheet st) r k.
Proof.
  intros Hh Hf Hk.
  destruct (date_column_for_spec (now ev) st Hh)
    as (s1 & c & Hrun1 & Hc4 & _ & Hmr1 & _ & Hfr1).
  assert (find_student_row s1 barcode = Some r) as Hf1.
  { rewrite <- Hf. apply find_student_row_ext; [done|].
    intros i. apply Hfr1. intros [=]. lia. }
  destruct (update_student_row_frame barcode r (with_sheet s1 st))
    as (s2 & Hrun2 & Hget2 & _).
  simpl in Hget2.
  assert ((update_student_row barcode r ;; ret r) (with_sheet s1 st)
          = (Ok r, with_sheet s2 st)) as Hrun2'.
  { erewrite bind_ok by exact Hrun2. reflexivity. }
  unfold update_ledger.
  erewrite bind_ok by exact Hrun1.
  erewrite bind_ok by reflexivity.
  change (sheet (with_sheet s1 st)) with s1. rewrite Hf1.
  erewrite bind_ok by exact Hrun2'.
  simpl. rewrite get_set_value. rewrite decide_False by (intros [=]; lia).
  rewrite Hget2 by (intros [=]; lia). apply Hfr1.
  apply found_row in Hf as [? _]. intros [=]. lia.
Qed.

Context {ev : env} {barcode : string} {st : state}.
Hypothesis Hne : barcode ≠ "".
Hypothesis Hh : headers_ok (sheet st).

Local Abbreviation s := (sheet st).
Local Abbreviation s' := (sheet (snd (process_attendance ev (Some barcode) st))).

Lemma process_attendance_update_ledger :
  s' = sheet (snd (update_ledger ev barcode st)).
Proof.
  replace (process_attendance ev (Some barcode))
    with (record_attendance ev barcode) by (by destruct barcode).
  apply record_attendance_sheet.
Qed.

(** The registration timestamp of a student is written with the row and
    left alone afterwards. *)
Lemma step_registration b :
  ledger_field s' b 3 =
  if decide (b = barcode)
  then match find_student_row s barcode with
       | Some _ => ledger_field s barcode 3
       | None => Some (strftime_datetime (now ev))
       end
  else ledger_field s b 3.
Proof.
  destruct (process_attendance_step ev barcode st Hne Hh) as (r & c & Hstep).
  unfold ledger_field.
  destruct (decide (b = barcode)) as [->|Hb].
  - pose proof Hstep as (_ & _ & _ & Hfr & _ & _ & Hrow & _). rewrite Hfr.
    destruct Hrow as [[Hf _]|(Hf & _ & _ & _ & Hreg)]; rewrite Hf; [|done].
    rewrite process_attendance_update_ledger.
    apply update_ledger_existing_row; auto.
  - rewrite (step_find_student_row Hstep b Hb).
    destruct (find_student_row s b) as [r'|] eqn:Er; [|done].
    pose proof Hstep as (Hc4 & _ & _ & Hfr & _ & _ & _ & Hfrm & _).
    apply Hfrm; [|intros [=]; lia].
    apply found_row in Hfr as [_ Hbc]. intros ->.
    rewrite <- (step_find_student_row Hstep b Hb) in Er.
    apply found_row in Er as [_ Hb']. congruence.
Qed.

Lemma step_student_ids :
  student_ids s' =
  (student_ids s ++ match find_student_row s barcode with
                    | None => [Some barcode]
                    | Some _ => []
                    end)%list.
Proof.
  destruct (process_attendance_step ev barcode st Hne Hh) as (r & c & Hstep).
  pose proof (step_column_1 Hstep) as Hcol.
  pose proof (max_row_ge_1 s) as Hge.
  destruct Hstep as (_ & _ & _ & _ & _ & _ & Hrow & _).
  destruct Hrow as [[Hf Hm]|(Hf & Hr & Hm & _)]; rewrite Hf.
  - rewrite app_nil_r. unfold student_ids. rewrite Hm.
    apply fmap_ext_elem. intros i _. rewrite Hcol.
    destruct (decide (i = r)) as [->|]; [|done].
    apply found_row in Hf as [_ ->]. done.
  - unfold student_ids. rewrite Hm.
    replace (r - 1) with (S (max_row s - 1)) by lia.
    rewrite seq_S, fmap_app.
    replace (2 + (max_row s - 1)) with r by lia. f_equal.
    + apply fmap_ext_elem. intros i Hi. apply elem_of_seq in Hi.
      rewrite Hcol. by rewrite decide_False by lia.
    + simpl. rewrite Hcol. by rewrite decide_True.
Qed.

End student_rows_over_time.

Lemma find_student_row_ids s b :
  is_Some (find_student_row s b) ↔ Some b ∈ student_ids s.
Proof.
  unfold student_ids. split.
  - intros [r Hr]. pose proof Hr as Hr'. apply found_row in Hr' as [_ Hb].
    apply first_from_Some in Hr as (Hrange & _).
    apply list_elem_of_fmap. exists r. split; [done|]. apply elem_of_seq. lia.
  - intros (r & Hb & Hin)%list_elem_of_fmap. apply elem_of_seq in Hin.
    destruct (find_student_row s b) eqn:E; [eauto|].
    pose proof (proj1 (first_from_None _ _ _) E r ltac:(lia)) as Hp.
    apply bool_decide_eq_false in Hp. by destruct Hp.
Qed.

(** ** The ledger after a session *)

Section ledger_after_session.

Lemma headers_ok_after ev ob st :
  headers_ok (sheet st) →
  headers_ok (sheet (snd (process_attendance ev ob st))).
Proof.
  intros Hh. destruct (recorded (ev, ob)) eqn:Hrec.
  - destruct (recorded_barcode _ _ Hrec) as (b & -> & Hne).
    destruct (process_attendance_step ev b st Hne Hh) as (r & c & Hstep).
    by eapply step_headers_ok.
  - by rewrite process_attendance_skipped.
Qed.

Lemma fresh_sheet_has_no_rows file db log eng b :
  find_student_row
    (sheet (State (initialize_excel_sheet Sheet.empty) file db log eng)) b = None.
Proof.
  unfold find_student_row.
  replace (max_row (sheet (State (initialize_excel_sheet Sheet.empty)
                             file db log eng))) with 1 by (by vm_compute).
  reflexivity.
Qed.

Lemma run_ledger_cell scans st b dt :
  headers_ok (sheet st) →
  ledger_cell (sheet (run scans st)) b (strftime_date dt)
  = last_time b (strftime_date dt)
      (ledger_cell (sheet st) b (strftime_date dt)) scans.
Proof.
  revert st. induction scans as [|[ev ob] scans IH]; intros st Hh; [done|].
  rewrite run_cons. simpl fst. simpl snd.
  rewrite IH by (by apply headers_ok_after).
  unfold last_time. simpl foldl. f_equal.
  unfold scan_of, scan_of_student. simpl fst. simpl snd.
  destruct (recorded (ev, ob)) eqn:Hrec.
  - destruct (recorded_barcode _ _ Hrec) as (b0 & -> & Hne).
    destruct (process_attendance_step ev b0 st Hne Hh) as (r & c & Hstep).
    rewrite (step_ledger_cell Hh Hstep). simpl.
    destruct (decide (b = b0 ∧ strftime_date dt = strftime_date (now ev)))
      as [[-> Hd]|Hno].
    + rewrite !bool_decide_eq_true_2 by done. done.
    + destruct (decide (b = b0)) as [->|Hb].
      * rewrite bool_decide_eq_true_2 by done.
        rewrite bool_decide_eq_false_2 by (intros Hd; apply Hno; by split).
        done.
      * rewrite (bool_decide_eq_false_2 (Some b0 = Some b)) by congruence.
        done.
  - by rewrite process_attendance_skipped.
Qed.

Lemma run_student_ids scans st acc :
  headers_ok (sheet st) →
  student_ids (sheet st) = Some <$> acc →
  student_ids (sheet (run scans st)) =
  Some <$> foldl add_new acc
    (barcode_of <$> filter (λ sc, recorded sc = true) scans).
Proof.
  revert st acc. induction scans as [|[ev ob] scans IH]; intros st acc Hh Hids.
  - done.
  - rewrite run_cons, filter_cons. simpl fst. simpl snd.
    destruct (decide (recorded (ev, ob) = true)) as [Hrec|Hrec].
    + destruct (recorded_barcode _ _ Hrec) as (b & -> & Hne).
      rewrite fmap_cons. simpl foldl.
      apply IH; [by apply headers_ok_after|].
      rewrite (step_student_ids Hne Hh), Hids.
      unfold add_new, barcode_of. simpl.
      pose proof (find_student_row_ids (sheet st) b) as Hiff.
      rewrite Hids in Hiff.
      destruct (decide (b ∈ acc)) as [Hin|Hin].
      * destruct Hiff as [_ Hiff].
        destruct Hiff as [r0 ->]; [|by rewrite app_nil_r].
        apply list_elem_of_fmap. eauto.
      * destruct (find_student_row (sheet st) b) as [r0|] eqn:E.
        -- destruct Hiff as [Hiff _].
           assert (Some b ∈ Some <$> acc) as Hx by (apply Hiff; eauto).
           apply list_elem_of_fmap in Hx as (y & Heq & Hy).
           injection Heq as Heq. by rewrite Heq in Hin.
        -- by rewrite fmap_app.
    + apply not_true_is_false in Hrec.
      rewrite process_attendance_skipped by done. simpl. by apply IH.
Qed.

Lemma first_scan_cons sc scans b :
  first_scan b (sc :: scans) =
  if scan_of_student b sc then Some (strftime_datetime (now (fst sc)))
  else first_scan b scans.
Proof.
  unfold first_scan. rewrite filter_cons.
  destruct (scan_of_student b sc); [by rewrite decide_True|].
  by rewrite decide_False.
Qed.

Lemma run_registration scans st b :
  headers_ok (sheet st) →
  ledger_field (sheet (run scans st)) b 3 =
  match find_student_row (sheet st) b with
  | Some _ => ledger_field (sheet st) b 3
  | None => first_scan b scans
  end.
Proof.
  revert st. induction scans as [|[ev ob] scans IH]; intros st Hh.
  - simpl. unfold ledger_field, first_scan.
    by destruct (find_student_row (sheet st) b).
  - rewrite run_cons. simpl fst. simpl snd.
    rewrite IH by (by apply headers_ok_after).
    rewrite first_scan_cons. unfold scan_of_student. simpl fst. simpl snd.
    destruct (recorded (ev, ob)) eqn:Hrec.
    + destruct (recorded_barcode _ _ Hrec) as (b0 & -> & Hne).
      destruct (process_attendance_step ev b0 st Hne Hh) as (r & c & Hstep).
      rewrite (step_registration Hne Hh). cbn [andb].
      destruct (decide (b = b0)) as [->|Hb].
      * rewrite bool_decide_eq_true_2 by done.
        destruct Hstep as (_ & _ & _ & Hfr & _). rewrite Hfr.
        by destruct (find_student_row (sheet st) b0).
      * rewrite bool_decide_eq_false_2 by congruence.
        by rewrite (step_find_student_row Hstep b Hb).
    + by rewrite process_attendance_skipped.
Qed.

End ledger_after_session.

(** X8.  A scan changes one cell of the ledger: afterwards the cell of
    every student on every date reads as before, except the cell of the
    scanned student on the date of the scan, which holds the time of the
    scan. *)
Theorem process_attendance_changes_one_cell ev barcode st b dt :
  barcode ≠ "" →
  headers_ok (sheet st) →
  ledger_cell (sheet (snd (process_attendance ev (Some barcode) st)))
    b (strftime_date dt)
  = if decide (b = barcode ∧ strftime_date dt = strftime_date (now ev))
    then Some (strftime_time (now ev))
    else ledger_cell (sheet st) b (strftime_date dt).
Proof.
  intros Hne Hh.
  destruct (process_attendance_step ev barcode st Hne Hh) as (r & c & Hstep).
  apply (step_ledger_cell Hh Hstep).
Qed.

(** X9.  After a session that starts from a new sheet, the cell of a
    student on a date holds the time of the last recorded scan of that
    student on that date, and is empty if there was none: no attendance
    mark is lost or moved by later scans. *)
Theorem session_cell_is_last_scan scans file db log eng b dt :
  ledger_cell
    (sheet (run scans
              (State (initialize_excel_sheet Sheet.empty) file db log eng)))
    b (strftime_date dt)
  = last_time b (strftime_date dt) None scans.
Proof.
  rewrite run_ledger_cell by apply initialize_headers_ok.
  unfold ledger_cell at 1. by rewrite fresh_sheet_has_no_rows.
Qed.

(** X10.  After a session that starts from a new sheet, the first column
    below the header lists the scanned identifiers, each once, in the order
    of their first recorded scan, and the sheet has one row per identifier
    below the header. *)
Theorem student_rows_first_seen scans file db log eng :
  let s := sheet (run scans
                    (State (initialize_excel_sheet Sheet.empty) file db log eng)) in
  let ids := first_seen
               (barcode_of <$> filter (λ sc, recorded sc = true) scans) in
  student_ids s = Some <$> ids
  ∧ NoDup ids
  ∧ max_row s = 1 + length ids.
Proof.
  intros s ids.
  assert (student_ids s = Some <$> ids) as Hids.
  { apply (run_student_ids scans _ []); [apply initialize_headers_ok|].
    by vm_compute. }
  split_and!; [done | apply NoDup_foldl_add_new; constructor |].
  assert (length (student_ids s) = length ids) as Hl
    by (rewrite Hids; apply length_fmap).
  unfold student_ids in Hl. rewrite length_fmap, length_seq in Hl.
  pose proof (max_row_ge_1 s). lia.
Qed.

(** X11.  After a session that starts from a new sheet, the registration
    cell of a student holds the clock reading of the first recorded scan of
    that student: later scans never change it. *)
Theorem registration_is_first_scan scans file db log eng b :
  ledger_field
    (sheet (run scans
              (State (initialize_excel_sheet Sheet.empty) file db log eng)))
    b 3
  = first_scan b scans.
Proof.
  rewrite run_registration by apply initialize_headers_ok.
  by rewrite fresh_sheet_has_no_rows.
Qed.

(** ** The remote mirror, the saved file and the log *)

Section mirror_and_file.

Variable ev : env.

Lemma update_cloud_storage_cloud barcode d t st :
  cloud (snd (update_cloud_storage ev barcode d t st)) =
  match remote ev with
  | RemoteOk =>
      <[by_student barcode d := payload ev t]>
        (<[by_date barcode d := payload ev t]> (cloud st))
  | SecondSetFails _ => <[by_date barcode d := payload ev t]> (cloud st)
  | _ => cloud st
  end.
Proof.
  unfold update_cloud_storage, try_, bind, get_database, db_set, append_log,
    raise, ret.
  destruct (remote ev); simpl; try reflexivity; by destruct (log_open ev).
Qed.

Lemma update_cloud_storage_calm barcode d t st :
  remote ev = RemoteOk →
  update_cloud_storage ev barcode d t st =
  (Ok tt, State (sheet st) (excel_file st)
            (<[by_student barcode d := payload ev t]>
               (<[by_date barcode d := payload ev t]> (cloud st)))
            (error_log st) (engine st)).
Proof.
  intros Hr. unfold update_cloud_storage, try_, bind, get_database, db_set, ret.
  rewrite Hr. reflexivity.
Qed.

Lemma update_cloud_storage_log_fails barcode d t st e el :
  remote_exn (remote ev) = Some e → log_open ev = Some el →
  ∃ db, update_cloud_storage ev barcode d t st =
        (Raise el, State (sheet st) (excel_file st) db (error_log st) (engine st)).
Proof.
  intros Hr Hl. unfold update_cloud_storage, try_, bind, get_database, db_set,
    append_log, raise, ret.
  destruct st as [s f c l eng]. rewrite Hl.
  destruct (remote ev); simpl in *; try discriminate; eauto.
Qed.

Lemma record_attendance_calm barcode st :
  headers_ok (sheet st) → remote ev = RemoteOk → log_open ev = None →
  ∃ s' r c eng,
    ledger_step (now ev) barcode (sheet st) s' r c
    ∧ record_attendance ev barcode st =
      (Ok tt, State s'
                (match save ev with None => Some s' | Some _ => excel_file st end)
                (<[by_student barcode (strftime_date (now ev))
                     := payload ev (strftime_time (now ev))]>
                   (<[by_date barcode (strftime_date (now ev))
                        := payload ev (strftime_time (now ev))]> (cloud st)))
                (error_log st ++ save_lines ev barcode)
                eng).
Proof.
  intros Hh Hr Hlog.
  destruct (update_ledger_spec ev barcode st Hh) as (s' & r & c & Hrun & Hstep).
  destruct (speak_message_ok ev ("Attendance marked successfully for " ++ barcode)
              (with_sheet s' st)) as [eng Hsp].
  exists s', r, c, eng. split; [done|].
  unfold record_attendance, try_.
  erewrite bind_ok by exact Hrun.
  erewrite bind_ok by exact Hsp.
  erewrite bind_ok by (by apply update_cloud_storage_calm).
  rewrite save_workbook_ok by done. reflexivity.
Qed.

Lemma record_attendance_log_fails barcode st e el :
  headers_ok (sheet st) →
  remote_exn (remote ev) = Some e → log_open ev = Some el →
  ∃ s' r c db eng,
    ledger_step (now ev) barcode (sheet st) s' r c
    ∧ record_attendance ev barcode st =
      (Raise el, State s' (excel_file st) db (error_log st) eng).
Proof.
  intros Hh Hr Hlog.
  destruct (update_ledger_spec ev barcode st Hh) as (s' & r & c & Hrun & Hstep).
  destruct (speak_message_ok ev ("Attendance marked successfully for " ++ barcode)
              (with_sheet s' st)) as [eng Hsp].
  destruct (update_cloud_storage_log_fails barcode (strftime_date (now ev))
              (strftime_time (now ev))
              (State s' (excel_file st) (cloud st) (error_log st) eng) e el Hr Hlog)
    as [db Hcl].
  exists s', r, c, db, eng. split; [done|].
  unfold record_attendance, try_.
  erewrite bind_ok by exact Hrun.
  erewrite bind_ok by exact Hsp.
  erewrite bind_raise by exact Hcl.
  simpl. unfold append_log. by rewrite Hlog.
Qed.

End mirror_and_file.

(** X12.  The two remote writes are not undone: when the database fails at
    [get_database] or at the first write the remote store is as before; when
    it fails at the second write the record by date stays written and the
    record by student is not; without a failure both paths hold the same
    record (the time, the status "present", the time of the update). *)
Theorem remote_writes_are_not_rolled_back ev barcode d t st :
  cloud (snd (update_cloud_storage ev barcode d t st)) =
  match remote ev with
  | RemoteOk =>
      <[by_student barcode d := payload ev t]>
        (<[by_date barcode d := payload ev t]> (cloud st))
  | SecondSetFails _ => <[by_date barcode d := payload ev t]> (cloud st)
  | _ => cloud st
  end.
Proof. apply update_cloud_storage_cloud. Qed.

(** X13.  With the remote database working, the mirror agrees with the
    ledger after a scan: the record by date and the record by student both
    carry the time that the ledger cell of the student and the date
    holds. *)
Theorem mirror_agrees_with_ledger ev barcode st :
  barcode ≠ "" →
  headers_ok (sheet st) →
  remote ev = RemoteOk →
  log_open ev = None →
  let st' := snd (process_attendance ev (Some barcode) st) in
  let d := strftime_date (now ev) in
  ∃ data,
    cloud st' !! by_date barcode d = Some data
    ∧ cloud st' !! by_student barcode d = Some data
    ∧ status data = "present"
    ∧ ledger_cell (sheet st') barcode d = Some (time data).
Proof.
  intros Hne Hh Hr Hlog st' d. subst st' d.
  replace (process_attendance ev (Some barcode))
    with (record_attendance ev barcode) by (by destruct barcode).
  destruct (record_attendance_calm ev barcode st Hh Hr Hlog)
    as (s' & r & c & eng & Hstep & ->). simpl.
  exists (payload ev (strftime_time (now ev))). split_and!.
  - rewrite lookup_insert_ne by (unfold by_date, by_student; congruence).
    apply lookup_insert_eq.
  - apply lookup_insert_eq.
  - done.
  - by eapply ledger_cell_after.
Qed.

(** X14.  When the save succeeds the file on disk is the sheet in memory. *)
Theorem saved_file_is_the_sheet ev barcode st :
  barcode ≠ "" →
  headers_ok (sheet st) →
  save ev = None →
  log_open ev = None →
  let st' := snd (process_attendance ev (Some barcode) st) in
  excel_file st' = Some (sheet st').
Proof.
  intros Hne Hh Hsave Hlog st'. subst st'.
  replace (process_attendance ev (Some barcode))
    with (record_attendance ev barcode) by (by destruct barcode).
  destruct (record_attendance_ok ev Hlog barcode st Hh)
    as (s' & r & c & db & eng & _ & _ & ->). simpl. by rewrite Hsave.
Qed.

(** X15.  A scan whose save failed is not lost: after a later scan whose
    save succeeds, the file on disk holds the mark of the earlier scan too
    (or the later time, if the later scan is of the same student on the
    same date). *)
Theorem failed_save_is_made_up ev1 ev2 b1 b2 st e :
  b1 ≠ "" → b2 ≠ "" →
  headers_ok (sheet st) →
  save ev1 = Some e → save ev2 = None →
  log_open ev1 = None → log_open ev2 = None →
  let st1 := snd (process_attendance ev1 (Some b1) st) in
  let st2 := snd (process_attendance ev2 (Some b2) st1) in
  excel_file st1 = excel_file st
  ∧ ∃ saved,
      excel_file st2 = Some saved
      ∧ ledger_cell saved b2 (strftime_date (now ev2))
        = Some (strftime_time (now ev2))
      ∧ ledger_cell saved b1 (strftime_date (now ev1))
        = Some (if decide (b1 = b2
                           ∧ strftime_date (now ev1) = strftime_date (now ev2))
                then strftime_time (now ev2) else strftime_time (now ev1)).
Proof.
  intros Hb1 Hb2 Hh Hs1 Hs2 Hl1 Hl2 st1 st2.
  destruct (process_attendance_step ev1 b1 st Hb1 Hh) as (r1 & c1 & Hstep1).
  fold st1 in Hstep1.
  pose proof (step_headers_ok Hh Hstep1) as Hh1.
  destruct (process_attendance_step ev2 b2 st1 Hb2 Hh1) as (r2 & c2 & Hstep2).
  fold st2 in Hstep2. split.
  - subst st1. replace (process_attendance ev1 (Some b1))
      with (record_attendance ev1 b1) by (by destruct b1).
    destruct (record_attendance_ok ev1 Hl1 b1 st Hh)
      as (s' & r & c & db & eng & _ & _ & ->). simpl. by rewrite Hs1.
  - exists (sheet st2). split_and!.
    + subst st2. replace (process_attendance ev2 (Some b2))
        with (record_attendance ev2 b2) by (by destruct b2).
      destruct (record_attendance_ok ev2 Hl2 b2 st1 Hh1)
        as (s' & r & c & db & eng & _ & _ & ->). simpl. by rewrite Hs2.
    + by eapply ledger_cell_after.
    + rewrite (step_ledger_cell Hh1 Hstep2).
      rewrite (ledger_cell_after _ _ _ _ _ _ Hstep1).
      by destruct (decide _).
Qed.

(** X16.  When the remote database fails and the error log cannot be opened
    either, the exception of the log reaches the caller of
    [process_attendance]: the ledger in memory holds the scan, but the
    workbook is not saved and nothing is logged. *)
Theorem unwritable_log_reaches_the_caller ev barcode st e el :
  barcode ≠ "" →
  headers_ok (sheet st) →
  remote_exn (remote ev) = Some e →
  log_open ev = Some el →
  let res := process_attendance ev (Some barcode) st in
  fst res = Raise el
  ∧ error_log (snd res) = error_log st
  ∧ excel_file (snd res) = excel_file st
  ∧ ledger_cell (sheet (snd res)) barcode (strftime_date (now ev))
    = Some (strftime_time (now ev)).
Proof.
  intros Hne Hh Hr Hlog res. subst res.
  replace (process_attendance ev (Some barcode))
    with (record_attendance ev barcode) by (by destruct barcode).
  destruct (record_attendance_log_fails ev barcode st e el Hh Hr Hlog)
    as (s' & r & c & db & eng & Hstep & ->). simpl.
  split_and!; try done. by eapply ledger_cell_after.
Qed.

(** ** Setting up a sheet that is already in use *)

Section initialize.

Lemma get_initialize s r k :
  get (initialize_excel_sheet s) r k =
  if decide ((1, 3) = (r, k)) then Some "Registration Date"
  else if decide ((1, 2) = (r, k)) then Some "Year"
  else if decide ((1, 1) = (r, k)) then Some "Student ID"
  else get s r k.
Proof.
  unfold initialize_excel_sheet, header_style.
  rewrite !get_set_width.
  rewrite get_set_fill, get_set_bold, get_set_value.
  destruct (decide ((1, 3) = (r, k))); [done|].
  rewrite get_set_fill, get_set_bold, get_set_value.
  destruct (decide ((1, 2) = (r, k))); [done|].
  by rewrite get_set_fill, get_set_bold, get_set_value.
Qed.

Lemma max_row_initialize s : max_row (initialize_excel_sheet s) = max_row s.
Proof.
  unfold initialize_excel_sheet, header_style.
  rewrite !max_row_set_width.
  repeat first [rewrite max_row_set_fill by lia
               |rewrite max_row_set_bold by lia
               |rewrite max_row_set_value by lia].
  pose proof (max_row_ge_1 s). lia.
Qed.

Lemma max_column_initialize s :
  max_column (initialize_excel_sheet s) = Nat.max (max_column s) 3.
Proof.
  unfold initialize_excel_sheet, header_style.
  rewrite !max_column_set_width.
  repeat first [rewrite max_column_set_fill by lia
               |rewrite max_column_set_bold by lia
               |rewrite max_column_set_value by lia].
  lia.
Qed.

Lemma worksheet_eta s : Worksheet (cells s) (column_width s) = s.
Proof. by destruct s. Qed.

Lemma set_value_same r c v b f s :
  cells s !! (r, c) = Some (Cell (Some v) b f) → set_value r c v s = s.
Proof.
  intros H. unfold set_value, the_cell. rewrite H. simpl.
  rewrite insert_id by done. apply worksheet_eta.
Qed.

Lemma set_bold_same r c v f s :
  cells s !! (r, c) = Some (Cell v true f) → set_bold r c s = s.
Proof.
  intros H. unfold set_bold, the_cell. rewrite H. simpl.
  rewrite insert_id by done. apply worksheet_eta.
Qed.

Lemma set_fill_same r c v b col s :
  cells s !! (r, c) = Some (Cell v b (Some col)) → set_fill r c col s = s.
Proof.
  intros H. unfold set_fill, the_cell. rewrite H. simpl.
  rewrite insert_id by done. apply worksheet_eta.
Qed.

Lemma set_width_same c w s :
  column_width s !! c = Some w → set_width c w s = s.
Proof.
  intros H. unfold set_width. rewrite insert_id by done. apply worksheet_eta.
Qed.

Lemma cells_set_width c w s k : cells (set_width c w s) !! k = cells s !! k.
Proof. reflexivity. Qed.

Lemma cells_header_here r c v s :
  cells (header_style r c (set_value r c v s)) !! (r, c)
  = Some (Cell (Some v) true (Some "CCCCCC")).
Proof.
  unfold header_style, set_fill, set_bold, set_value, the_cell.
  cbn [cells]. rewrite !lookup_insert_eq. reflexivity.
Qed.

Lemma cells_header_other r c v s k :
  (r, c) ≠ k →
  cells (header_style r c (set_value r c v s)) !! k = cells s !! k.
Proof.
  intros Hne. unfold header_style, set_fill, set_bold, set_value.
  cbn [cells]. by rewrite !lookup_insert_ne.
Qed.

Lemma initialize_header_cells s :
  cells (initialize_excel_sheet s) !! (1, 1)
    = Some (Cell (Some "Student ID") true (Some "CCCCCC"))
  ∧ cells (initialize_excel_sheet s) !! (1, 2)
    = Some (Cell (Some "Year") true (Some "CCCCCC"))
  ∧ cells (initialize_excel_sheet s) !! (1, 3)
    = Some (Cell (Some "Registration Date") true (Some "CCCCCC")).
Proof.
  unfold initialize_excel_sheet. rewrite !cells_set_width. split_and!.
  - rewrite !cells_header_other by (intros [=]). apply cells_header_here.
  - rewrite cells_header_other by (intros [=]). apply cells_header_here.
  - apply cells_header_here.
Qed.

Lemma initialize_widths s :
  column_width (initialize_excel_sheet s) !! 1 = Some 15
  ∧ column_width (initialize_excel_sheet s) !! 2 = Some 10
  ∧ column_width (initialize_excel_sheet s) !! 3 = Some 20.
Proof.
  unfold initialize_excel_sheet, set_width. cbn [column_width].
  split_and!.
  - rewrite !lookup_insert_ne by lia. apply lookup_insert_eq.
  - rewrite lookup_insert_ne by lia. apply lookup_insert_eq.
  - apply lookup_insert_eq.
Qed.

End initialize.

(** X17.  [initialize_excel_sheet] can be run on a sheet that is in use, as
    [main] does at every start: it changes no cell outside A1, B1 and C1,
    adds no row, and widens the sheet to three columns at most; on a sheet
    that has the three headers it changes no value and no dimension, so the
    rows of the students and the date columns are as they were saved. *)
Theorem initialize_keeps_the_ledger s :
  (∀ r k, (r, k) ∉ [(1, 1); (1, 2); (1, 3)] →
          get (initialize_excel_sheet s) r k = get s r k)
  ∧ max_row (initialize_excel_sheet s) = max_row s
  ∧ max_column (initialize_excel_sheet s) = Nat.max (max_column s) 3
  ∧ (headers_ok s →
     (∀ r k, get (initialize_excel_sheet s) r k = get s r k)
     ∧ max_column (initialize_excel_sheet s) = max_column s
     ∧ student_ids (initialize_excel_sheet s) = student_ids s
     ∧ date_headers (initialize_excel_sheet s) = date_headers s
     ∧ ∀ b d, ledger_cell (initialize_excel_sheet s) b d = ledger_cell s b d).
Proof.
  split_and!.
  - intros r k Hnot. rewrite get_initialize.
    rewrite !decide_False; [done | | |];
      intros Heq; apply Hnot; rewrite <- Heq; repeat constructor.
  - apply max_row_initialize.
  - apply max_column_initialize.
  - intros Hh.
    assert (∀ r k, get (initialize_excel_sheet s) r k = get s r k) as Hget.
    { intros r k. rewrite get_initialize. destruct Hh as (A & B & C).
      repeat case_decide; simplify_eq; done. }
    assert (max_column (initialize_excel_sheet s) = max_column s) as Hmc.
    { rewrite max_column_initialize. pose proof (headers_max_column s Hh). lia. }
    pose proof (max_row_initialize s) as Hmr.
    split_and!; [done | done | | |].
    + unfold student_ids. rewrite Hmr. apply fmap_ext_elem. by intros.
    + unfold date_headers. rewrite Hmc. apply fmap_ext_elem. by intros.
    + intros b d. unfold ledger_cell.
      rewrite (find_student_row_ext (initialize_excel_sheet s) s) by done.
      rewrite (find_date_column_ext (initialize_excel_sheet s) s) by done.
      destruct (find_student_row s b), (find_date_column s d); done.
Qed.

(** X18.  Setting a sheet up twice is the same as setting it up once:
    values, styles and column widths. *)
Theorem initialize_twice s :
  initialize_excel_sheet (initialize_excel_sheet s) = initialize_excel_sheet s.
Proof.
  destruct (initialize_header_cells s) as (A & B & C).
  destruct (initialize_widths s) as (W1 & W2 & W3).
  set (s1 := initialize_excel_sheet s) in *.
  unfold initialize_excel_sheet at 1. unfold header_style.
  rewrite (set_value_same 1 1 _ _ _ s1 A).
  rewrite (set_bold_same 1 1 _ _ s1 A), (set_fill_same 1 1 _ _ _ s1 A).
  rewrite (set_value_same 1 2 _ _ _ s1 B).
  rewrite (set_bold_same 1 2 _ _ s1 B), (set_fill_same 1 2 _ _ _ s1 B).
  rewrite (set_value_same 1 3 _ _ _ s1 C).
  rewrite (set_bold_same 1 3 _ _ s1 C), (set_fill_same 1 3 _ _ _ s1 C).
  by rewrite (set_width_same 1 _ s1 W1), (set_width_same 2 _ s1 W2),
    (set_width_same 3 _ s1 W3).
Qed.

(** ** A round of [main] *)

Section rounds.

Context {image location encoding : Type}.
Variable face_locations : image → list location.
Variable face_encodings : image → list location → list encoding.
Variable face_distance : encoding → encoding → Q.

Local Abbreviation recognize := (recognize_face face_locations face_encodings face_distance).
Local Abbreviation register := (register_face face_locations face_encodings).
Local Abbreviation round := (main_round face_locations face_encodings face_distance).

Lemma truthy_Some ob : truthy ob = true → ∃ b, ob = Some b ∧ b ≠ "".
Proof. destruct ob as [[|a b]|]; simpl; [discriminate | eauto | discriminate]. Qed.

Lemma recognize_face_key img (fs : files image encoding) r :
  recognize img fs = Some r → r ∈ dict_keys (load_encodings fs).
Proof.
  unfold recognize_face. destruct (load_encodings fs) as [|kv d] eqn:Ed; [done|].
  destruct (face_locations img) as [|l ls]; [done|].
  intros E. apply first_face_Some in E as (cand & known & _ & Hin & _).
  unfold dict_keys. apply list_elem_of_fmap. by exists (r, known).
Qed.

Lemma register_face_cases img roll_no (fs : files image encoding) :
  (length (face_locations img) ≠ 1
   ∧ fst (register img roll_no fs)
     = Ok (false, "Please ensure only one face is visible for registration.")
   ∧ load_encodings (snd (register img roll_no fs)) = load_encodings fs)
  ∨ (∃ enc rest,
       length (face_locations img) = 1
       ∧ face_encodings img (face_locations img) = enc :: rest
       ∧ fst (register img roll_no fs) = Ok (true, "Face registered successfully.")
       ∧ load_encodings (snd (register img roll_no fs))
         = dict_set roll_no enc (load_encodings fs))
  ∨ (∃ e, fst (register img roll_no fs) = Raise e
          ∧ load_encodings (snd (register img roll_no fs)) = load_encodings fs).
Proof.
  destruct (decide (length (face_locations img) = 1)) as [Hlen|Hlen].
  - destruct (face_encodings img (face_locations img)) as [|enc rest] eqn:Henc.
    + right. right. unfold register_face. rewrite Hlen, Henc. simpl.
      eexists. split; [reflexivity|].
      unfold ensure_dirs, load_encodings. by destruct (faces_dir fs).
    + right. left. exists enc, rest.
      rewrite (register_face_run _ _ _ _ _ _ _ Hlen Henc). done.
  - left. split; [done|]. unfold register_face.
    destruct (length (face_locations img) =? 1) eqn:E.
    + apply Nat.eqb_eq in E. done.
    + simpl. unfold ensure_dirs, load_encodings. by destruct (faces_dir fs).
Qed.

Lemma dict_keys_set_mono {V} k k' (v : V) d :
  k' ∈ dict_keys d → k' ∈ dict_keys (dict_set k v d).
Proof.
  intros Hin. destruct (decide (k ∈ dict_keys d)) as [Hk|Hk].
  - by rewrite dict_keys_set_old.
  - rewrite dict_keys_set_new by done. apply elem_of_app. by left.
Qed.

Lemma dict_keys_set_key {V} k (v : V) d : k ∈ dict_keys (dict_set k v d).
Proof.
  unfold dict_keys. apply list_elem_of_fmap. exists (k, v).
  split; [done | apply dict_set_elem].
Qed.

Lemma rows_after_scan ev b0 st b :
  b0 ≠ "" → headers_ok (sheet st) →
  is_Some (find_student_row
             (sheet (snd (process_attendance ev (Some b0) st))) b) →
  b = b0 ∨ is_Some (find_student_row (sheet st) b).
Proof.
  intros Hne Hh Hb. destruct (decide (b = b0)) as [|Hbb]; [by left|]. right.
  destruct (process_attendance_step ev b0 st Hne Hh) as (r & c & Hstep).
  by rewrite <- (step_find_student_row Hstep b Hbb).
Qed.

End rounds.

(** X19.  The loop of [main] keeps the ledger inside the registry: if every
    identifier with a row in the ledger is registered before a round, the
    same holds after it, whatever the camera delivered and whatever failed;
    the header row stays in place as well. *)
Theorem main_round_keeps_ids_registered
    {image location encoding : Type}
    (face_locations : image → list location)
    (face_encodings : image → list location → list encoding)
    (face_distance : encoding → encoding → Q)
    (ev : env) (face_frame : option image) (code_data : option string)
    (w : @world image encoding) :
  headers_ok (sheet (ledger w)) →
  ids_registered w →
  let w' := snd (main_round face_locations face_encodings face_distance
                   ev face_frame code_data w) in
  headers_ok (sheet (ledger w')) ∧ ids_registered w'.
Proof.
  intros Hh Hreg w'. subst w'. unfold main_round.
  destruct face_frame as [frame|]; [|done].
  destruct (truthy (recognize_face _ _ _ frame (registry w))) eqn:Hrec.
  - destruct (truthy_Some _ Hrec) as (b0 & Hb0 & Hne). rewrite Hb0.
    cbn [fst snd ledger registry].
    split; [by apply headers_ok_after|].
    intros b Hb. cbn [fst snd ledger registry] in *.
    destruct (rows_after_scan ev b0 (ledger w) b Hne Hh Hb) as [->|Hold].
    + by eapply recognize_face_key.
    + by apply Hreg.
  - destruct (truthy code_data) eqn:Hcode; [|done].
    destruct (truthy_Some _ Hcode) as (b0 & -> & Hne). simpl default.
    destruct (register_face_cases face_locations face_encodings
                frame b0 (registry w))
      as [(_ & -> & Hload)|[(enc & rest & _ & _ & -> & Hload)|(e & -> & Hload)]];
      cbn [fst snd ledger registry].
    + split; [done|]. intros b Hb. cbn [fst snd ledger registry] in *.
      rewrite Hload. by apply Hreg.
    + split; [by apply headers_ok_after|].
      intros b Hb. cbn [fst snd ledger registry] in *. rewrite Hload.
      destruct (rows_after_scan ev b0 (ledger w) b Hne Hh Hb) as [->|Hold].
      * apply dict_keys_set_key.
      * apply dict_keys_set_mono. by apply Hreg.
    + split; [done|]. intros b Hb. cbn [fst snd ledger registry] in *.
      rewrite Hload. by apply Hreg.
Qed.

(** X20.  A round in which the face is not recognized and either no code is
    read or the frame does not show exactly one face records nothing: the
    ledger, its saved file, the mirror and the log are as before, and so
    are the stored encodings. *)
Theorem round_without_registration_records_nothing
    {image location encoding : Type}
    (face_locations : image → list location)
    (face_encodings : image → list location → list encoding)
    (face_distance : encoding → encoding → Q)
    (ev : env) (frame : image) (code_data : option string)
    (w : @world image encoding) :
  truthy (recognize_face face_locations face_encodings face_distance
            frame (registry w)) = false →
  truthy code_data = false ∨ length (face_locations frame) ≠ 1 →
  let res := main_round face_locations face_encodings face_distance
               ev (Some frame) code_data w in
  fst res = Ok tt
  ∧ ledger (snd res) = ledger w
  ∧ load_encodings (registry (snd res)) = load_encodings (registry w).
Proof.
  intros Hrec Hwhy res. subst res. unfold main_round. rewrite Hrec.
  destruct (truthy code_data) eqn:Hcode; [|done].
  destruct Hwhy as [?|Hlen]; [done|].
  destruct (register_face_cases face_locations face_encodings frame
              (default "" code_data) (registry w))
    as [(_ & -> & Hload)|[(enc & rest & Hone & _)|(e & He & _)]]; [done|done|].
  exfalso. revert He. unfold register_face.
  destruct (length (face_locations frame) =? 1) eqn:E.
  - apply Nat.eqb_eq in E. done.
  - simpl. discriminate.
Qed.

(** X21.  A round in which the face is recognized marks the attendance of
    the recognized identifier and leaves the registry alone; the result of
    the round is the result of [process_attendance]. *)
Theorem recognized_face_is_marked
    {image location encoding : Type}
    (face_locations : image → list location)
    (face_encodings : image → list location → list encoding)
    (face_distance : encoding → encoding → Q)
    (ev : env) (frame : image) (code_data : option string)
    (w : @world image encoding) (roll_no : string) :
  recognize_face face_locations face_encodings face_distance
    frame (registry w) = Some roll_no →
  roll_no ≠ "" →
  headers_ok (sheet (ledger w)) →
  let res := main_round face_locations face_encodings face_distance
               ev (Some frame) code_data w in
  fst res = fst (process_attendance ev (Some roll_no) (ledger w))
  ∧ registry (snd res) = registry w
  ∧ roll_no ∈ dict_keys (load_encodings (registry (snd res)))
  ∧ ledger_cell (sheet (ledger (snd res))) roll_no (strftime_date (now ev))
    = Some (strftime_time (now ev)).
Proof.
  intros Hrec Hne Hh res. subst res. unfold main_round. rewrite Hrec.
  replace (truthy (Some roll_no)) with true by (by destruct roll_no).
  simpl. split_and!; [done | done | by eapply recognize_face_key |].
  destruct (process_attendance_step ev roll_no (ledger w) Hne Hh)
    as (r & c & Hstep).
  by eapply ledger_cell_after.
Qed.

(** X22.  A round in which the face is not recognized, a code is read and
    the frame shows exactly one face registers the face under the code and
    marks the attendance of the code at once. *)
Theorem new_face_is_registered_and_marked
    {image location encoding : Type}
    (face_locations : image → list location)
    (face_encodings : image → list location → list encoding)
    (face_distance : encoding → encoding → Q)
    (ev : env) (frame : image) (code : string)
    (w : @world image encoding) (enc : encoding) (rest : list encoding) :
  truthy (recognize_face face_locations face_encodings face_distance
            frame (registry w)) = false →
  code ≠ "" →
  length (face_locations frame) = 1 →
  face_encodings frame (face_locations frame) = enc :: rest →
  headers_ok (sheet (ledger w)) →
  let res := main_round face_locations face_encodings face_distance
               ev (Some frame) (Some code) w in
  fst res = fst (process_attendance ev (Some code) (ledger w))
  ∧ dict_get code (load_encodings (registry (snd res))) = Some enc
  ∧ ledger_cell (sheet (ledger (snd res))) code (strftime_date (now ev))
    = Some (strftime_time (now ev)).
Proof.
  intros Hrec Hne Hlen Henc Hh res. subst res. unfold main_round. rewrite Hrec.
  replace (truthy (Some code)) with true by (by destruct code).
  simpl default. rewrite (register_face_run _ _ _ _ _ _ _ Hlen Henc). simpl.
  split_and!; [done | apply dict_get_set_eq |].
  destruct (process_attendance_step ev code (ledger w) Hne Hh)
    as (r & c & Hstep).
  by eapply ledger_cell_after.
Qed.

(** ** Reading a code from the camera *)

Section reading_codes.

Lemma read_code_loop_cons n f feed :
  read_code_loop n (Some f :: feed) =
  match (if (n + 1) mod 5 =? 0 then decode_frame f else None) with
  | Some code => Returned (Some code)
  | None =>
      if bool_decide (key_pressed f ∈ quit_keys) then Exited
      else read_code_loop (n + 1) feed
  end.
Proof. reflexivity. Qed.

Lemma read_code_loop_returned n feed code :
  read_code_loop n feed = Returned (Some code) →
  ∃ i f, feed !! i = Some (Some f)
         ∧ (n + i + 1) mod 5 = 0
         ∧ decode_frame f = Some code.
Proof.
  revert n. induction feed as [|[f|] feed IH]; intros n; [done| |done].
  rewrite read_code_loop_cons.
  destruct ((n + 1) mod 5 =? 0) eqn:E.
  - destruct (decode_frame f) as [code'|] eqn:D.
    + intros [= ->]. exists 0, f. apply Nat.eqb_eq in E.
      split_and!; [done | by rewrite Nat.add_0_r | done].
    + destruct (bool_decide (key_pressed f ∈ quit_keys)); [done|].
      intros H. destruct (IH _ H) as (i & g & Hi & Hm & Hd).
      exists (S i), g. split_and!; [done | | done].
      by replace (n + S i + 1) with (n + 1 + i + 1) by lia.
  - destruct (bool_decide (key_pressed f ∈ quit_keys)); [done|].
    intros H. destruct (IH _ H) as (i & g & Hi & Hm & Hd).
    exists (S i), g. split_and!; [done | | done].
    by replace (n + S i + 1) with (n + 1 + i + 1) by lia.
Qed.

Lemma read_code_loop_passed_over n pre feed :
  passed_over n pre →
  read_code_loop n (pre ++ feed) = read_code_loop (n + length pre) feed.
Proof.
  revert n. induction pre as [|[g|] pre IH]; intros n.
  - intros _. simpl. by rewrite Nat.add_0_r.
  - intros [[Hskip Hkey] Hrest].
    rewrite <- app_comm_cons, read_code_loop_cons.
    rewrite bool_decide_eq_false_2 by done.
    replace (n + length (Some g :: pre)) with (n + 1 + length pre)
      by (simpl; lia).
    destruct ((n + 1) mod 5 =? 0) eqn:E; [|by apply IH].
    apply Nat.eqb_eq in E. destruct Hskip as [? | Hnone]; [done|].
    rewrite Hnone. by apply IH.
  - intros Hfalse. destruct Hfalse.
Qed.

End reading_codes.

(** X23.  [read_code_from_webcam] looks for codes in every fifth frame only:
    a code that it returns was decoded from a frame whose number, counted
    from 1, is a multiple of 5. *)
Theorem codes_come_from_every_fifth_frame opened feed code :
  read_code_from_webcam opened feed = Returned (Some code) →
  ∃ i f, feed !! i = Some (Some f)
         ∧ (i + 1) mod 5 = 0
         ∧ decode_frame f = Some code.
Proof.
  unfold read_code_from_webcam. destruct opened; [|done].
  intros H. apply read_code_loop_returned in H as (i & f & Hi & Hm & Hd).
  eauto.
Qed.

(** X24.  In a scanned frame a QR text wins over a barcode, and a code wins
    over a quit key: after frames that were passed over, a fifth frame with
    a non-empty QR text makes the function return that text, whatever
    barcodes the frame shows and whatever key is pressed. *)
Theorem qr_text_wins pre f rest q more :
  passed_over 0 pre →
  (length pre + 1) mod 5 = 0 →
  qr_found f = true →
  qr_texts f = q :: more →
  q ≠ "" →
  read_code_from_webcam true (pre ++ Some f :: rest) = Returned (Some q).
Proof.
  intros Hpre Hfifth Hfound Htexts Hq. unfold read_code_from_webcam.
  rewrite read_code_loop_passed_over by done.
  rewrite read_code_loop_cons. rewrite Nat.add_0_l.
  apply Nat.eqb_eq in Hfifth. rewrite Hfifth.
  unfold decode_frame. rewrite Hfound, Htexts. by destruct q.
Qed.

(** ** The further properties at concrete inputs *)

Section more_witnesses.

Import Sample SampleFeed.

Local Abbreviation frame := Example.frame.
Local Abbreviation locate := Example.locate.
Local Abbreviation encode := Example.encode.
Local Abbreviation distance := Example.distance.
Local Abbreviation calm := Example.calm.
Local Abbreviation stormy := Example.stormy.
Local Abbreviation morning := Example.morning.
Local Abbreviation noon := Example.noon.
Local Abbreviation fresh := Example.fresh.

Lemma not_in_keys_S9 : "S9" ∉ dict_keys (load_encodings two_students).
Proof.
  change (dict_keys (load_encodings two_students)) with ["S1"; "S2"].
  intros H. repeat (apply elem_of_cons in H as [H|H]; [discriminate|]).
  by apply elem_of_nil in H.
Qed.

Lemma fresh_ids_registered (fs : files frame Q) : ids_registered (World fresh fs).
Proof.
  intros b [r Hr].
  change (find_student_row
            (sheet (State (initialize_excel_sheet Sheet.empty) None ∅ [] false))
            b = Some r) in Hr.
  rewrite fresh_sheet_has_no_rows in Hr. discriminate.
Qed.

Lemma register_face_stores_encoding_witness :
  fst (register_face locate encode [5%Q] "S9" two_students)
  = Ok (true, "Face registered successfully.")
  ∧ dict_get "S9" (load_encodings (snd (register_face locate encode
                                           [5%Q] "S9" two_students))) = Some 5%Q.
Proof.
  destruct (register_face_stores_encoding locate encode [5%Q] "S9" two_students
              5%Q []) as (H1 & H2 & _).
  - reflexivity.
  - reflexivity.
  - split; [exact H1 | exact H2].
Defined.

Lemma register_face_keeps_order_witness :
  dict_keys (load_encodings (snd (register_face locate encode
                                    [5%Q] "S9" two_students)))
  = ["S1"; "S2"; "S9"].
Proof.
  destruct (register_face_keeps_order locate encode [5%Q] "S9" two_students
              5%Q []) as (_ & H).
  - reflexivity.
  - reflexivity.
  - exact (H not_in_keys_S9).
Defined.

Lemma deregister_face_absent_is_noop_witness :
  deregister_face "S9" two_students = two_students.
Proof.
  apply deregister_face_absent_is_noop.
  - exact not_in_keys_S9.
  - reflexivity.
Defined.

Lemma register_then_deregister_witness :
  load_encodings (deregister_face "S9"
                    (snd (register_face locate encode [5%Q] "S9" two_students)))
  = load_encodings two_students.
Proof.
  destruct (register_then_deregister locate encode [5%Q] "S9" two_students
              5%Q []) as (H & _).
  - reflexivity.
  - reflexivity.
  - exact not_in_keys_S9.
  - reflexivity.
  - exact H.
Defined.

Lemma registered_frame_is_recognized_witness :
  recognize_face locate encode distance [5%Q]
    (snd (register_face locate encode [5%Q] "S9" no_files)) = Some "S9".
Proof.
  destruct (registered_frame_is_recognized locate encode distance
              [5%Q] "S9" no_files 5%Q []) as (_ & H).
  - reflexivity.
  - reflexivity.
  - unfold Qle. simpl. lia.
  - apply H. reflexivity.
Defined.

Lemma recognize_face_first_match_wins_witness :
  recognize_face locate encode distance [(2 # 5)%Q] close_pair = Some "S1".
Proof.
  apply (recognize_face_first_match_wins locate encode distance
           [(2 # 5)%Q] close_pair (2 # 5)%Q 0%Q "S1" [] [("S2", (2 # 5)%Q)]).
  - discriminate.
  - reflexivity.
  - reflexivity.
  - constructor.
  - unfold Qle. simpl. lia.
Defined.

(** X8 after two scans on one date: the scan of S2 at noon leaves the mark
    of S1 from the morning where it was and writes its own. *)
Lemma process_attendance_changes_one_cell_witness :
  let st1 := snd (process_attendance (calm morning) (Some "S1") fresh) in
  let st2 := snd (process_attendance (calm noon) (Some "S2") st1) in
  ledger_cell (sheet st1) "S1" (strftime_date morning) = Some "09:05:07"
  ∧ ledger_cell (sheet st2) "S1" (strftime_date morning) = Some "09:05:07"
  ∧ ledger_cell (sheet st1) "S2" (strftime_date noon) = None
  ∧ ledger_cell (sheet st2) "S2" (strftime_date noon) = Some "12:30:00".
Proof.
  intros st1 st2. subst st2.
  assert (headers_ok (sheet st1)) as Hh by (vm_compute; repeat split).
  split_and!.
  - reflexivity.
  - rewrite (process_attendance_changes_one_cell (calm noon) "S2" st1
               "S1" morning); [reflexivity | discriminate | exact Hh].
  - reflexivity.
  - rewrite (process_attendance_changes_one_cell (calm noon) "S2" st1
               "S2" noon); [reflexivity | discriminate | exact Hh].
Defined.

Lemma mirror_agrees_with_ledger_witness :
  ∃ data,
    cloud (snd (process_attendance (calm morning) (Some "S1") fresh))
      !! by_date "S1" "2026-11-04" = Some data
    ∧ ledger_cell (sheet (snd (process_attendance (calm morning) (Some "S1") fresh)))
        "S1" "2026-11-04" = Some (time data).
Proof.
  destruct (mirror_agrees_with_ledger (calm morning) "S1" fresh)
    as (data & H1 & _ & _ & H2).
  - discriminate.
  - vm_compute. repeat split.
  - reflexivity.
  - reflexivity.
  - exists data. split; [exact H1 | exact H2].
Defined.

Lemma saved_file_is_the_sheet_witness :
  excel_file (snd (process_attendance (calm morning) (Some "S1") fresh))
  = Some (sheet (snd (process_attendance (calm morning) (Some "S1") fresh))).
Proof.
  apply (saved_file_is_the_sheet (calm morning) "S1" fresh).
  - discriminate.
  - vm_compute. repeat split.
  - reflexivity.
  - reflexivity.
Defined.

Lemma failed_save_is_made_up_witness :
  ∃ saved,
    excel_file
      (snd (process_attendance (calm noon) (Some "S2")
              (snd (process_attendance (stormy morning) (Some "S1") fresh))))
    = Some saved
    ∧ ledger_cell saved "S1" "2026-11-04" = Some "09:05:07".
Proof.
  destruct (failed_save_is_made_up (stormy morning) (calm noon) "S1" "S2" fresh
              (Exn PermissionError "Permission denied"))
    as (_ & saved & H1 & _ & H2).
  - discriminate.
  - discriminate.
  - vm_compute. repeat split.
  - reflexivity.
  - reflexivity.
  - reflexivity.
  - reflexivity.
  - exists saved. split; [exact H1 | exact H2].
Defined.

Lemma unwritable_log_reaches_the_caller_witness :
  fst (process_attendance (mute noon) (Some "S1") fresh)
  = Raise (Exn PermissionError "read-only file system")
  ∧ excel_file (snd (process_attendance (mute noon) (Some "S1") fresh)) = None.
Proof.
  destruct (unwritable_log_reaches_the_caller (mute noon) "S1" fresh
              (Exn OtherException "network unreachable")
              (Exn PermissionError "read-only file system"))
    as (H1 & _ & H2 & _).
  - discriminate.
  - vm_compute. repeat split.
  - reflexivity.
  - reflexivity.
  - split; [exact H1 | exact H2].
Defined.

Lemma main_round_keeps_ids_registered_witness :
  ids_registered
    (snd (main_round locate encode distance (calm morning)
            (Some [0%Q]) None (World fresh two_students))).
Proof.
  destruct (main_round_keeps_ids_registered locate encode distance
              (calm morning) (Some [0%Q]) None (World fresh two_students))
    as (_ & H).
  - vm_compute. repeat split.
  - apply fresh_ids_registered.
  - exact H.
Defined.

Lemma round_without_registration_records_nothing_witness :
  ledger (snd (main_round locate encode distance (calm morning)
                 (Some [7%Q]) None (World fresh two_students)))
  = fresh.
Proof.
  destruct (round_without_registration_records_nothing locate encode distance
              (calm morning) [7%Q] None (World fresh two_students))
    as (_ & H & _).
  - reflexivity.
  - left. reflexivity.
  - exact H.
Defined.

Lemma recognized_face_is_marked_witness :
  ledger_cell
    (sheet (ledger (snd (main_round locate encode distance (calm morning)
                           (Some [0%Q]) None (World fresh two_students)))))
    "S1" "2026-11-04" = Some "09:05:07".
Proof.
  destruct (recognized_face_is_marked locate encode distance (calm morning)
              [0%Q] None (World fresh two_students) "S1") as (_ & _ & _ & H).
  - reflexivity.
  - discriminate.
  - vm_compute. repeat split.
  - exact H.
Defined.

Lemma new_face_is_registered_and_marked_witness :
  dict_get "S9"
    (load_encodings
       (registry (snd (main_round locate encode distance (calm morning)
                         (Some [7%Q]) (Some "S9") (World fresh two_students)))))
  = Some 7%Q
  ∧ ledger_cell
      (sheet (ledger (snd (main_round locate encode distance (calm morning)
                             (Some [7%Q]) (Some "S9")
                             (World fresh two_students)))))
      "S9" "2026-11-04" = Some "09:05:07".
Proof.
  destruct (new_face_is_registered_and_marked locate encode distance
              (calm morning) [7%Q] "S9" (World fresh two_students) 7%Q [])
    as (_ & H1 & H2).
  - reflexivity.
  - discriminate.
  - reflexivity.
  - reflexivity.
  - vm_compute. repeat split.
  - split; [exact H1 | exact H2].
Defined.

Lemma codes_come_from_every_fifth_frame_witness :
  ∃ i f,
    [Some barcode_only; Some blank; Some blank; Some blank; Some barcode_only]
      !! i = Some (Some f)
    ∧ (i + 1) mod 5 = 0
    ∧ decode_frame f = Some "B-77".
Proof.
  apply (codes_come_from_every_fifth_frame true
           [Some barcode_only; Some blank; Some blank; Some blank;
            Some barcode_only] "B-77").
  reflexivity.
Defined.

Lemma qr_text_wins_witness :
  read_code_from_webcam true
    ([Some barcode_only; Some blank; Some blank; Some blank]
       ++ Some both_and_quit :: [])
  = Returned (Some "QR-42").
Proof.
  apply (qr_text_wins [Some barcode_only; Some blank; Some blank; Some blank]
           both_and_quit [] "QR-42" []).
  - assert (∀ k, k = 255 → k ∉ quit_keys) as Hkey.
    { intros k -> H. unfold quit_keys in H.
      repeat (apply elem_of_cons in H as [H|H]; [discriminate|]).
      by apply elem_of_nil in H. }
    simpl. repeat split; try (left; lia); by apply Hkey.
  - reflexivity.
  - reflexivity.
  - reflexivity.
  - discriminate.
Defined.

End more_witnesses.

(** ** The speech engine does not touch the records *)

Section audio.

Ltac each_clause tac :=
  repeat (apply List.Forall_cons; [intros ?; simpl; tac|]);
  apply List.Forall_nil.

Lemma engine_blind_bind {A B} (m : M A) (k : A → M B) :
  engine_blind m → (∀ a, engine_blind (k a)) → engine_blind (bind m k).
Proof.
  intros Hm Hk st st' Heq. unfold bind. destruct (Hm st st' Heq) as [H1 H2].
  destruct (m st) as [[a|e] st1], (m st') as [[a'|e'] st1']; simpl in *;
    try discriminate.
  - injection H1 as ->. by apply Hk.
  - by injection H1 as ->.
Qed.

Lemma engine_blind_try {A} (m : M A) (cl : list (clause A)) :
  engine_blind m → Forall (λ c, ∀ e, engine_blind (snd c e)) cl →
  engine_blind (try_ m cl).
Proof.
  intros Hm Hcl st st' Heq. unfold try_. destruct (Hm st st' Heq) as [H1 H2].
  destruct (m st) as [[a|e] st1], (m st') as [[a'|e'] st1']; simpl in *;
    try discriminate.
  - by injection H1 as ->.
  - injection H1 as ->. clear Hm Heq.
    induction Hcl as [|[p h] cl Hh _ IH]; simpl; [done|].
    destruct (p e'); [by apply Hh | apply IH].
Qed.

Lemma engine_blind_append_log ev line : engine_blind (append_log ev line).
Proof.
  intros st st' Heq. unfold append_log, records in *.
  destruct (log_open ev); simpl; [done|]. split; [done|]. congruence.
Qed.

Lemma engine_blind_db_set ev b path data : engine_blind (db_set ev b path data).
Proof.
  intros st st' Heq. unfold db_set, records in *.
  destruct (remote ev), b; simpl; split; try done; congruence.
Qed.

Lemma engine_blind_cloud ev barcode d t :
  engine_blind (update_cloud_storage ev barcode d t).
Proof.
  apply engine_blind_try.
  - apply engine_blind_bind.
    + intros st st' Heq. unfold get_database. by destruct (remote ev).
    + intros _. apply engine_blind_bind; [apply engine_blind_db_set|].
      intros _. apply engine_blind_db_set.
  - each_clause ltac:(apply engine_blind_append_log).
Qed.

Lemma engine_blind_save ev barcode : engine_blind (save_workbook ev barcode).
Proof.
  apply engine_blind_try.
  - intros st st' Heq. unfold records in *.
    destruct (save ev); simpl; [done|]. split; [done|]. congruence.
  - each_clause ltac:(apply engine_blind_append_log).
Qed.

Lemma speak_message_records ev m st :
  fst (speak_message ev m st) = Ok tt
  ∧ records (snd (speak_message ev m st)) = records st.
Proof. destruct (speak_message_ok ev m st) as [eng ->]. done. Qed.

Lemma try_bind_ok {A B} (m : M A) (k : A → M B) cl st a st1 :
  m st = (Ok a, st1) → try_ (bind m k) cl st = try_ (k a) cl st1.
Proof. intros H. unfold try_, bind. by rewrite H. Qed.

Lemma try_bind_raise {A B} (m : M A) (k : A → M B) cl st e st1 :
  m st = (Raise e, st1) → try_ (bind m k) cl st = dispatch cl e st1.
Proof. intros H. unfold try_, bind. by rewrite H. Qed.

(** Two statements that return normally and leave the records alone can be
    exchanged in front of statements that do not look at the engine. *)
Lemma exchange_speaker (m1 sp sp' rest : M unit) cl st :
  (∀ s, fst (sp s) = Ok tt ∧ records (snd (sp s)) = records s) →
  (∀ s, fst (sp' s) = Ok tt ∧ records (snd (sp' s)) = records s) →
  engine_blind (try_ rest cl) →
  fst (try_ (m1 ;; sp ;; rest) cl st) = fst (try_ (m1 ;; sp' ;; rest) cl st)
  ∧ records (snd (try_ (m1 ;; sp ;; rest) cl st))
    = records (snd (try_ (m1 ;; sp' ;; rest) cl st)).
Proof.
  intros Hsp Hsp' Hblind.
  destruct (m1 st) as [[[]|e] st1] eqn:E1.
  - rewrite !(try_bind_ok m1 _ cl st tt st1 E1).
    destruct (Hsp st1) as [Ha1 Ha2]. destruct (Hsp' st1) as [Hb1 Hb2].
    destruct (sp st1) as [ra sta] eqn:Ea. destruct (sp' st1) as [rb stb] eqn:Eb.
    simpl in Ha1, Ha2, Hb1, Hb2. subst ra rb.
    rewrite (try_bind_ok sp _ cl st1 tt sta Ea).
    rewrite (try_bind_ok sp' _ cl st1 tt stb Eb).
    apply Hblind. congruence.
  - by rewrite !(try_bind_raise m1 _ cl st e st1 E1).
Qed.

Lemma record_attendance_audio a ev barcode st :
  fst (record_attendance (with_audio a ev) barcode st)
  = fst (record_attendance ev barcode st)
  ∧ records (snd (record_attendance (with_audio a ev) barcode st))
    = records (snd (record_attendance ev barcode st)).
Proof.
  change (record_attendance (with_audio a ev) barcode st) with
    (try_ (update_ledger ev barcode ;;
           speak_message (with_audio a ev)
             ("Attendance marked successfully for " ++ barcode) ;;
           update_cloud_storage ev barcode (strftime_date (now ev))
             (strftime_time (now ev)) ;;
           save_workbook ev barcode)
       [(any_exception, λ e, append_log ev (processing_error_line ev barcode e))]
       st).
  unfold record_attendance. apply exchange_speaker.
  - intros s. apply speak_message_records.
  - intros s. apply speak_message_records.
  - apply engine_blind_try.
    + apply engine_blind_bind; [apply engine_blind_cloud|].
      intros _. apply engine_blind_save.
    + each_clause ltac:(apply engine_blind_append_log).
Qed.

End audio.

(** X25.  The speech engine cannot affect the records: with any other
    behaviour of the engine (working, failing to start, failing to speak)
    [process_attendance] returns the same result and leaves the same sheet,
    saved file, remote store and error log. *)
Theorem audio_does_not_affect_records a ev ob st :
  fst (process_attendance (with_audio a ev) ob st)
  = fst (process_attendance ev ob st)
  ∧ records (snd (process_attendance (with_audio a ev) ob st))
    = records (snd (process_attendance ev ob st)).
Proof.
  destruct ob as [[|c b]|]; [done | | done].
  apply (record_attendance_audio a ev (String c b) st).
Qed.

(** ** When the error log cannot be opened *)


